(** * CATMAID history tables: a shallow embedding of migration 0004

    The migration
    [django/applications/catmaid/migrations/0004_add_history_table_support.py]
    installs five PL/pgSQL functions, one catalog table and one view.  This
    file embeds them as functions over an explicit database state and proves
    the properties of the temporal versioning engine stated about them.

    Conventions of the embedding:
    - a PL/pgSQL function that can raise returns [result]; a raised error
      carries no state, the enclosing transaction rolls back to the state it
      started from;
    - [current_timestamp] is the start time of the transaction and is passed
      as the argument [now];
    - the catalog has one schema, [public], which is also the search path;
      identifiers are stored as they are written (no case folding). *)

From Stdlib Require Import ZArith String Ascii List Bool Lia.
From stdpp Require Import base option list gmap strings fin_maps.

Local Open Scope string_scope.
Local Open Scope Z_scope.
Local Open Scope list_scope.

(** ** Errors and the result monad *)

Inductive sqlerror : Type :=
  | undefined_table (relname : string)
  | undefined_column (colname : string)
  | duplicate_object (objname : string)
  | unique_violation (constraint : string)
  | data_exception (msg : string)
  | unassigned_record (recname : string)
  | wrong_object_type (relname : string)
  | stack_depth_exceeded
  | raise_exception (msg : string).

Inductive result (A : Type) : Type :=
  | Ok (a : A)
  | Err (e : sqlerror).
Arguments Ok {A} a.
Arguments Err {A} e.

#[global] Instance result_ret : MRet result := fun _ a => Ok a.
#[global] Instance result_bind : MBind result := fun _ _ f m =>
  match m with
  | Ok a => f a
  | Err e => Err e
  end.

(** A loop whose body can raise: [FOR x IN xs LOOP s := body s x END LOOP]. *)
Fixpoint foldM {A S : Type} (body : S → A → result S) (s : S) (xs : list A)
  : result S :=
  match xs with
  | [] => Ok s
  | x :: xs' => s' ← body s x; foldM body s' xs'
  end.

(** Set-oriented evaluation of an expression that can raise, row by row. *)
Fixpoint mapR {A B : Type} (f : A → result B) (xs : list A) : result (list B) :=
  match xs with
  | [] => Ok []
  | x :: xs' => y ← f x; ys ← mapR f xs'; Ok (y :: ys)
  end.

Definition is_ok {A : Type} (r : result A) : bool :=
  match r with Ok _ => true | Err _ => false end.

(** ** Timestamps and [tstzrange] *)

Definition timestamptz : Type := Z.

(** A range with the default bounds [[lo, hi)]; a bound [None] is SQL NULL,
    that is, unbounded on that side. *)
Inductive tstzrange : Type :=
  | empty
  | range (lo hi : option timestamptz).

(** The constructor [tstzrange(lo, hi)]: it raises when the lower bound is
    above the upper one, and [[t, t)] is the empty range. *)
Definition mk_tstzrange (lo hi : option timestamptz) : result tstzrange :=
  match lo, hi with
  | Some l, Some h =>
      if h <? l then
        Err (data_exception
               "range lower bound must be less than or equal to range upper bound")
      else if l =? h then Ok empty
      else Ok (range lo hi)
  | _, _ => Ok (range lo hi)
  end.

(** [lower(r)]: NULL for the empty range and for an unbounded lower end. *)
Definition lower (r : tstzrange) : option timestamptz :=
  match r with
  | empty => None
  | range lo _ => lo
  end.

Definition upper (r : tstzrange) : option timestamptz :=
  match r with
  | empty => None
  | range _ hi => hi
  end.

(** "valid_to = null": the period is a real interval with no upper end. *)
Definition is_open (r : tstzrange) : bool :=
  match r with
  | range _ None => true
  | _ => false
  end.

(** Whether timestamp [t] lies in the period. *)
Definition contains (r : tstzrange) (t : timestamptz) : bool :=
  match r with
  | empty => false
  | range lo hi =>
      match lo with Some l => l <=? t | None => true end
      && match hi with Some h => t <? h | None => true end
  end.

Definition overlaps (r1 r2 : tstzrange) : Prop :=
  ∃ t, contains r1 t = true ∧ contains r2 t = true.

(** ** Identifier quoting and the name of a history table *)

Definition dquote : ascii := "034"%char.

Definition is_lower_or_underscore (c : ascii) : bool :=
  let n := nat_of_ascii c in
  ((97 <=? n)%nat && (n <=? 122)%nat) || (n =? 95)%nat.

Definition is_digit (c : ascii) : bool :=
  let n := nat_of_ascii c in (48 <=? n)%nat && (n <=? 57)%nat.

Fixpoint string_forallb (p : ascii → bool) (s : string) : bool :=
  match s with
  | EmptyString => true
  | String c s' => p c && string_forallb p s'
  end.

(** [translate(s, from, to)]: a character of [from] is replaced by the one
    at the same position of [to], or deleted when [to] is shorter. *)
Fixpoint index_of (c : ascii) (s : string) : option nat :=
  match s with
  | EmptyString => None
  | String d s' => if Ascii.eqb c d then Some O else S <$> index_of c s'
  end.

Fixpoint translate (s from to : string) : string :=
  match s with
  | EmptyString => EmptyString
  | String c s' =>
      match index_of c from with
      | None => String c (translate s' from to)
      | Some i =>
          match String.get i to with
          | Some d => String d (translate s' from to)
          | None => translate s' from to
          end
      end
  end.

Fixpoint double_dquotes (s : string) : string :=
  match s with
  | EmptyString => EmptyString
  | String c s' =>
      if Ascii.eqb c dquote then String dquote (String dquote (double_dquotes s'))
      else String c (double_dquotes s')
  end.

Section Naming.

(** The keywords that [quote_ident] must quote are PostgreSQL's, not the
    migration's: they are a parameter of the development. *)
Variable keyword : string → bool.

Definition safe_ident (s : string) : bool :=
  match s with
  | EmptyString => false
  | String c s' =>
      is_lower_or_underscore c
      && string_forallb (fun d => is_lower_or_underscore d || is_digit d) s'
      && negb (keyword s)
  end.

(** [quote_ident], which is what [format('%I', s)] applies. *)
Definition quote_ident (s : string) : string :=
  if safe_ident s then s
  else String dquote (double_dquotes s +:+ String dquote EmptyString).

(** [history_table_name(live_table_name)], lines 19-26:
    [translate(format('%I_history', live_table_name), dquote, '')]: the
    identifier is quoted where needed, the suffix appended, and every
    double quote then removed. *)
Definition history_table_name (live_table_name : string) : string :=
  translate (quote_ident live_table_name +:+ "_history")
            (String dquote EmptyString) EmptyString.

End Naming.

(** ** The database state *)

(** A column as [information_schema.columns] shows it. *)
Record column : Type := Column {
  column_name : string;
  is_not_null : bool;
  column_default : option string
}.

(** A row-level [AFTER INSERT OR UPDATE OR DELETE] trigger. *)
Record trigger : Type := Trigger {
  tgname : string;
  tgfunc : string;
  tgargs : list string
}.

(** A row: its [id], the values of its other columns, and the value of
    [sys_period] ([None] is NULL, as in a table without that column). *)
Record row : Type := Row {
  id : Z;
  cells : list string;
  sys_period : option tstzrange
}.

Record table : Type := Table {
  columns : list column;
  inherits : list string;     (* direct parents, as in pg_inherits *)
  primary_key : bool;         (* PRIMARY KEY (id) *)
  triggers : list trigger;
  rows : list row             (* the rows stored in this very table *)
}.

(** A row of [catmaid_history_table], lines 11-15. *)
Record history_entry : Type := HistoryEntry {
  cht_history_table_name : string;      (* PRIMARY KEY *)
  cht_live_table_name : string;
  cht_creation_time : timestamptz
}.

Record database : Type := Database {
  tables : gmap string table;
  indexes : gmap string string;         (* index name, table it is on *)
  catmaid_history_table : list history_entry
}.

Definition set_tables (tabs : gmap string table) (db : database) : database :=
  Database tabs (indexes db) (catmaid_history_table db).

Definition set_rows (rs : list row) (t : table) : table :=
  Table (columns t) (inherits t) (primary_key t) (triggers t) rs.

Definition set_columns (cs : list column) (t : table) : table :=
  Table cs (inherits t) (primary_key t) (triggers t) (rows t).

Definition set_triggers (tgs : list trigger) (t : table) : table :=
  Table (columns t) (inherits t) (primary_key t) tgs (rows t).

Definition has_column (c : string) (t : table) : bool :=
  existsb (fun col => String.eqb (column_name col) c) (columns t).

(** [child] is [anc] or inherits from it, directly or not.  The walk is
    bounded by the number of tables, which a chain cannot exceed. *)
Fixpoint inherits_from (fuel : nat) (tabs : gmap string table)
    (child anc : string) : bool :=
  bool_decide (child = anc)
  || match fuel with
     | O => false
     | S fuel' =>
         match tabs !! child with
         | Some t => existsb (fun p => inherits_from fuel' tabs p anc) (inherits t)
         | None => false
         end
     end.

(** The tables a statement on [rel] without [ONLY] works on: [rel] and all
    its descendants. *)
Definition in_scope (tabs : gmap string table) (rel n : string) : bool :=
  inherits_from (size tabs) tabs n rel.

(** One statement applied to every selected table; it raises as soon as it
    raises on one of them. *)
Definition for_tables (sel : string → bool) (f : table → result table)
    (tabs : gmap string table) : result (gmap string table) :=
  foldM (fun acc nt =>
           if sel nt.1 then t' ← f nt.2; Ok (<[nt.1 := t']> acc) else Ok acc)
        tabs (map_to_list tabs).

(** [to_regclass(name)] is not NULL: some relation has that name. *)
Definition relation_exists (n : string) (db : database) : bool :=
  bool_decide (is_Some (tables db !! n)) || bool_decide (is_Some (indexes db !! n)).

(** The cast of [schema.name] to [regclass]. *)
Definition regclass (schema n : string) (db : database) : result string :=
  if String.eqb schema "public" && bool_decide (is_Some (tables db !! n))
  then Ok n
  else Err (undefined_table n).

(** The row of the view [catmaid_inheritening_tables], lines 29-39. *)
Record inheritening : Type := Inheritening {
  parent_schemaname : string;
  parent_tablename : string;
  child_schemaname : string;
  child_tablename : string
}.

(** [SELECT * FROM catmaid_inheritening_tables WHERE child_tablename = n
    AND child_schemaname = schema]. *)
Definition inheritening_of (schema n : string) (db : database)
  : list inheritening :=
  if String.eqb schema "public" then
    match tables db !! n with
    | Some t => map (fun p => Inheritening "public" p "public" n) (inherits t)
    | None => []
    end
  else [].

(** *** Data definition statements *)

(** What [LIKE] copies of a column: name, type and NOT NULL, no default. *)
Definition like_column (c : column) : column :=
  Column (column_name c) (is_not_null c) None.

(** Columns of [CREATE TABLE (LIKE l) INHERITS (p)]: those of the parent,
    merged with the same-named ones of [l], then the remaining ones of [l]. *)
Definition merge_columns (pcols lcols : list column) : list column :=
  map (fun pc =>
         Column (column_name pc)
                (is_not_null pc
                 || existsb (fun lc => String.eqb (column_name lc) (column_name pc)
                                       && is_not_null lc) lcols)
                (column_default pc)) pcols
  ++ List.filter (fun lc => negb (existsb (fun pc => String.eqb (column_name pc)
                                                           (column_name lc)) pcols))
            lcols.

(** [CREATE TABLE IF NOT EXISTS h (LIKE l)] and
    [CREATE TABLE IF NOT EXISTS h (LIKE l) INHERITS (p)]. *)
Definition create_table_like (h l : string) (parent : option string)
    (db : database) : result database :=
  if relation_exists h db then Ok db
  else
    match tables db !! l with
    | None => Err (undefined_table l)
    | Some lt =>
        let lcols := map like_column (columns lt) in
        match parent with
        | None =>
            Ok (set_tables (<[h := Table lcols [] false [] []]> (tables db)) db)
        | Some p =>
            match tables db !! p with
            | None => Err (undefined_table p)
            | Some pt =>
                Ok (set_tables
                      (<[h := Table (merge_columns (columns pt) lcols) [p]
                                    false [] []]> (tables db)) db)
            end
        end
    end.

(** [ALTER TABLE h ALTER COLUMN c ...], on [h] and its descendants. *)
Definition alter_column (change : column → column) (h c : string)
    (db : database) : result database :=
  match tables db !! h with
  | None => Err (undefined_table h)
  | Some t =>
      if has_column c t then
        tabs ← for_tables (in_scope (tables db) h)
                 (fun t' =>
                    Ok (set_columns
                          (map (fun col => if String.eqb (column_name col) c
                                           then change col else col)
                               (columns t')) t'))
                 (tables db);
        Ok (set_tables tabs db)
      else Err (undefined_column c)
  end.

Definition drop_not_null (col : column) : column :=
  Column (column_name col) false (column_default col).

Definition set_default_null (col : column) : column :=
  Column (column_name col) (is_not_null col) None.

(** [ALTER TABLE h ADD COLUMN sys_period tstzrange NOT NULL DEFAULT
    tstzrange(current_timestamp, null)]: existing rows take the default. *)
Definition add_sys_period (now : timestamptz) (h : string) (db : database)
  : result database :=
  match tables db !! h with
  | None => Err (undefined_table h)
  | Some _ =>
      tabs ← for_tables (in_scope (tables db) h)
               (fun t' =>
                  p ← mk_tstzrange (Some now) None;
                  Ok (Table
                        (if has_column "sys_period" t' then columns t'
                         else columns t'
                              ++ [Column "sys_period" true
                                         (Some "tstzrange(current_timestamp, null)")])
                        (inherits t') (primary_key t') (triggers t')
                        (map (fun r =>
                                match sys_period r with
                                | Some _ => r
                                | None => Row (id r) (cells r) (Some p)
                                end) (rows t'))))
               (tables db);
      Ok (set_tables tabs db)
  end.

(** [CREATE INDEX i ON h USING gist(sys_period)]. *)
Definition create_index (i h : string) (db : database) : result database :=
  if relation_exists i db then Err (duplicate_object i)
  else
    match tables db !! h with
    | None => Err (undefined_table h)
    | Some t =>
        if has_column "sys_period" t
        then Ok (Database (tables db) (<[i := h]> (indexes db))
                          (catmaid_history_table db))
        else Err (undefined_column "sys_period")
    end.

(** [CREATE TRIGGER tg AFTER INSERT OR UPDATE OR DELETE ON l FOR EACH ROW
    EXECUTE PROCEDURE fn(args)]. *)
Definition create_trigger (tg l fn : string) (args : list string)
    (db : database) : result database :=
  match tables db !! l with
  | None => Err (undefined_table l)
  | Some t =>
      if existsb (fun g => String.eqb (tgname g) tg) (triggers t)
      then Err (duplicate_object tg)
      else Ok (set_tables
                 (<[l := set_triggers (triggers t ++ [Trigger tg fn args]) t]>
                    (tables db)) db)
  end.

(** [DROP TABLE IF EXISTS h CASCADE]: [h] goes with every table inheriting
    from it and with the indexes on the dropped tables.  A missing [h] is
    skipped; a relation [h] that is an index, not a table, is refused. *)
Definition drop_table_cascade (h : string) (db : database) : result database :=
  match tables db !! h with
  | None =>
      if bool_decide (is_Some (indexes db !! h)) then Err (wrong_object_type h)
      else Ok db
  | Some _ =>
      let gone := in_scope (tables db) h in
      Ok (Database (filter (fun nt => gone nt.1 = false) (tables db))
                   (filter (fun it => gone it.2 = false) (indexes db))
                   (catmaid_history_table db))
  end.

(** [DROP TRIGGER IF EXISTS tg ON l]. *)
Definition drop_trigger (tg l : string) (db : database) : database :=
  match tables db !! l with
  | None => db
  | Some t =>
      set_tables
        (<[l := set_triggers
                  (List.filter (fun g => negb (String.eqb (tgname g) tg)) (triggers t))
                  t]> (tables db)) db
  end.

(** *** Data manipulation statements *)

Fixpoint unique_ids (rs : list row) : bool :=
  match rs with
  | [] => true
  | r :: rs' => negb (existsb (fun r' => id r' =? id r) rs') && unique_ids rs'
  end.

(** The primary key on [id], where the table has one. *)
Definition check_primary_key (n : string) (t : table) : result table :=
  if primary_key t && negb (unique_ids (rows t))
  then Err (unique_violation (n +:+ "_pkey"))
  else Ok t.

(** [INSERT INTO n VALUES (r)]. *)
Definition insert_row (n : string) (r : row) (db : database) : result database :=
  match tables db !! n with
  | None => Err (undefined_table n)
  | Some t =>
      t' ← check_primary_key n (set_rows (rows t ++ [r]) t);
      Ok (set_tables (<[n := t']> (tables db)) db)
  end.

(** [tstzrange(lower(sys_period), current_timestamp)] on one row. *)
Definition close_period (now : timestamptz) (r : row) : result row :=
  p ← mk_tstzrange (sys_period r ≫= lower) (Some now);
  Ok (Row (id r) (cells r) (Some p)).

(** The rows of one table under
    [SET sys_period = tstzrange(lower(sys_period), current_timestamp)
     WHERE id = k]. *)
Definition close_where_id (now : timestamptz) (k : Z) (rs : list row)
  : result (list row) :=
  mapR (fun r => if id r =? k then close_period now r else Ok r) rs.

(** The statement of lines 302-306:
    [UPDATE h SET col = tstzrange(lower(sys_period), current_timestamp)
     WHERE id = k].  Without [ONLY] it reaches the descendants of [h] too.
    The only range column of the model is [sys_period]. *)
Definition update_sys_period (now : timestamptz) (h col : string) (k : Z)
    (db : database) : result database :=
  match tables db !! h with
  | None => Err (undefined_table h)
  | Some t =>
      if negb (has_column "sys_period" t) then Err (undefined_column "sys_period")
      else if negb (String.eqb col "sys_period") then Err (undefined_column col)
      else
        tabs ← for_tables (in_scope (tables db) h)
                 (fun t' => rs ← close_where_id now k (rows t');
                            Ok (set_rows rs t'))
                 (tables db);
        Ok (set_tables tabs db)
  end.

(** The statement of lines 313-321:
    [INSERT INTO h (<columns of the live table>, col)
     SELECT ($1).*, tstzrange(current_timestamp, null)] using [new]. *)
Definition insert_history_row (now : timestamptz) (h col live : string)
    (new : row) (db : database) : result database :=
  match tables db !! live, tables db !! h with
  | None, _ => Err (undefined_table live)
  | _, None => Err (undefined_table h)
  | Some lt, Some ht =>
      match List.find (fun c => negb (has_column (column_name c) ht)) (columns lt) with
      | Some c => Err (undefined_column (column_name c))
      | None =>
          if negb (has_column "sys_period" ht) || negb (String.eqb col "sys_period")
          then Err (undefined_column col)
          else
            p ← mk_tstzrange (Some now) None;
            insert_row h (Row (id new) (cells new) (Some p)) db
      end
  end.

(** ** The capture handler *)

Inductive tg_op : Type := INSERT | UPDATE | DELETE.

Definition tg_op_eqb (a b : tg_op) : bool :=
  match a, b with
  | INSERT, INSERT | UPDATE, UPDATE | DELETE, DELETE => true
  | _, _ => false
  end.

(** The special variables of a trigger function.  [OLD] is not assigned in
    an insert, [NEW] is not assigned in a delete. *)
Record trigger_data : Type := TriggerData {
  TG_OP : tg_op;
  TG_TABLE_NAME : string;
  TG_ARGV : list string;
  OLD : option row;
  NEW : option row
}.

Definition TG_NARGS (tg : trigger_data) : nat := length (TG_ARGV tg).

(** [TG_ARGV[i]]; out of range it is NULL, which [format] prints as the
    empty string. *)
Definition argv (tg : trigger_data) (i : nat) : string :=
  nth i (TG_ARGV tg) EmptyString.

Definition record_of (recname : string) (r : option row) : result row :=
  match r with
  | Some x => Ok x
  | None => Err (unassigned_record recname)
  end.

(** [update_history_of_row()], lines 288-328.  The value returned is the
    row handed back to the executor; the function hands back NULL. *)
Definition update_history_of_row (now : timestamptz) (tg : trigger_data)
    (db : database) : result (database * option row) :=
  if negb (TG_NARGS tg =? 3)%nat then
    Err (raise_exception
           "History could not be updated, expected three arguments in trigger")
  else
    db1 ← (if tg_op_eqb (TG_OP tg) UPDATE || tg_op_eqb (TG_OP tg) DELETE then
             old ← record_of "old" (OLD tg);
             update_sys_period now (argv tg 1) (argv tg 0) (id old) db
           else Ok db);
    db2 ← (if tg_op_eqb (TG_OP tg) INSERT || tg_op_eqb (TG_OP tg) UPDATE then
             new ← record_of "new" (NEW tg);
             insert_history_row now (argv tg 1) (argv tg 0) (TG_TABLE_NAME tg)
                                new db1
           else Ok db1);
    Ok (db2, None).

(** ** Mutations of a live table and the firing of its triggers *)

(** The functions a trigger can name. *)
Definition call_trigger_function (fn : string) (now : timestamptz)
    (tg : trigger_data) (db : database) : result (database * option row) :=
  if String.eqb fn "update_history_of_row" then update_history_of_row now tg db
  else Err (raise_exception ("function " +:+ fn +:+ "() does not exist")).

(** The [AFTER ... FOR EACH ROW] triggers of table [n], fired for one row;
    what an AFTER trigger returns is ignored. *)
Definition fire_triggers (now : timestamptz) (n : string) (op : tg_op)
    (old new : option row) (db : database) : result database :=
  match tables db !! n with
  | None => Err (undefined_table n)
  | Some t =>
      foldM (fun d g =>
               dr ← call_trigger_function (tgfunc g) now
                      (TriggerData op n (tgargs g) old new) d;
               Ok dr.1)
            db (triggers t)
  end.

(** A mutation of a live table, one statement each. *)
Inductive mutation : Type :=
  | Create (new : row)           (* INSERT INTO n VALUES (new) *)
  | Modify (k : Z) (new : row)   (* UPDATE n SET (...) = new WHERE id = k *)
  | Remove (k : Z).              (* DELETE FROM n WHERE id = k *)

(** The live table alone: what the statement does to the rows of [n]. *)
Definition mutate_rows (m : mutation) (rs : list row) : list row :=
  match m with
  | Create new => rs ++ [new]
  | Modify k new => map (fun r => if id r =? k then new else r) rs
  | Remove k => List.filter (fun r => negb (id r =? k)) rs
  end.

(** The rows the statement touches, as (operation, OLD, NEW). *)
Definition affected (m : mutation) (rs : list row)
  : list (tg_op * option row * option row) :=
  match m with
  | Create new => [(INSERT, None, Some new)]
  | Modify k new =>
      map (fun r => (UPDATE, Some r, Some new)) (List.filter (fun r => id r =? k) rs)
  | Remove k =>
      map (fun r => (DELETE, Some r, None)) (List.filter (fun r => id r =? k) rs)
  end.

(** One statement against live table [n]: the rows change, the primary key
    is checked, then the row triggers fire for every affected row. *)
Definition execute (now : timestamptz) (n : string) (m : mutation)
    (db : database) : result database :=
  match tables db !! n with
  | None => Err (undefined_table n)
  | Some t =>
      t' ← check_primary_key n (set_rows (mutate_rows m (rows t)) t);
      foldM (fun d e => fire_triggers now n e.1.1 e.1.2 e.2 d)
            (set_tables (<[n := t']> (tables db)) db)
            (affected m (rows t))
  end.

(** A transaction: the statements run in order at one [current_timestamp];
    when one raises, the database is the one the transaction started from. *)
Definition transaction (now : timestamptz) (stmts : list (string * mutation))
    (db : database) : database * bool :=
  match foldM (fun d s => execute now s.1 s.2 d) db stmts with
  | Ok db' => (db', true)
  | Err _ => (db, false)
  end.

(** ** The registry, the synthesizer and the teardown *)

(** [EXISTS(SELECT 1 FROM catmaid_history_table cht
            WHERE cht.history_table_name = h)]. *)
Definition is_registered (h : string) (db : database) : bool :=
  existsb (fun cht => String.eqb (cht_history_table_name cht) h)
          (catmaid_history_table db).

(** [INSERT INTO catmaid_history_table (history_table_name, live_table_name)
    VALUES (h, l)], lines 195-196; [creation_time] takes its default. *)
Definition insert_catmaid_history_table (now : timestamptz) (h l : string)
    (db : database) : result database :=
  if is_registered h db then Err (unique_violation "catmaid_history_table_pkey")
  else Ok (Database (tables db) (indexes db)
                    (catmaid_history_table db ++ [HistoryEntry h l now])).


(** [DELETE FROM catmaid_history_table WHERE live_table_name = l]. *)
Definition delete_catmaid_history_table (l : string) (db : database) : database :=
  Database (tables db) (indexes db)
           (List.filter (fun cht => negb (String.eqb (cht_live_table_name cht) l))
                        (catmaid_history_table db)).

Definition trigger_name (live_table_name : string) : string :=
  "on_change_" +:+ live_table_name +:+ "_update_history".

Section Synthesizer.

Variable keyword : string → bool.

(** [create_history_table(live_table_schema, live_table_name,
    create_triggers, copy_inheritance)], lines 51-223.  [depth] is the
    room left on the stack: PostgreSQL stops a recursion that exhausts it
    with an error. *)
Fixpoint create_history_table (depth : nat) (now : timestamptz)
    (live_table_schema live_table_name : string)
    (create_triggers copy_inheritance : bool) (db : database)
  : result database :=
  match depth with
  | O => Err stack_depth_exceeded
  | S depth' =>
      qualified_live_table_name ← regclass live_table_schema live_table_name db;
      let name_of := history_table_name keyword in
      let history_table_name := name_of live_table_name in
      if is_registered history_table_name db then Ok db
      else
        pd ← (if copy_inheritance then
                match inheritening_of live_table_schema live_table_name db with
                | [] => Ok (None, db)
                | [parent_info] =>
                    db' ← create_history_table depth' now
                            (parent_schemaname parent_info)
                            (parent_tablename parent_info) true true db;
                    Ok (Some parent_info, db')
                | _ :: _ :: _ =>
                    Err (raise_exception
                           ("Couldn't create history table, found more than one parent of "
                            +:+ live_table_schema +:+ "s." +:+ live_table_name +:+ "s"))
                end
              else Ok (None, db));
        db2 ← create_table_like history_table_name live_table_name
                ((fun parent_info : inheritening =>
                    name_of (parent_tablename parent_info)) <$> pd.1)
                pd.2;
        db3 ← foldM (fun d column_info =>
                       d' ← alter_column drop_not_null history_table_name
                              (column_name column_info) d;
                       alter_column set_default_null history_table_name
                         (column_name column_info) d')
                    db2
                    (match tables db2 !! live_table_name with
                     | Some t => columns t
                     | None => []
                     end);
        db4 ← (if match tables db3 !! history_table_name with
                  | Some t => has_column "sys_period" t
                  | None => false
                  end
               then Ok db3
               else add_sys_period now history_table_name db3);
        db5 ← (if relation_exists (history_table_name +:+ "_sys_period") db4
               then Ok db4
               else create_index (history_table_name +:+ "_sys_period")
                                 history_table_name db4);
        if create_triggers then
          db6 ← create_trigger (trigger_name live_table_name) live_table_name
                  "update_history_of_row"
                  ["sys_period"; history_table_name; "true"] db5;
          insert_catmaid_history_table now history_table_name live_table_name db6
        else Ok db5
  end.

(** [drop_history_table(live_table_name)], lines 227-254. *)
Definition drop_history_table (live_table_name : string) (db : database)
  : result database :=
  let history_table_name := history_table_name keyword live_table_name in
  db1 ← drop_table_cascade history_table_name db;
  Ok (delete_catmaid_history_table live_table_name
        (drop_trigger (trigger_name live_table_name) live_table_name db1)).

(** [drop_all_history_tables()], lines 259-277: the loop runs over the
    rows the registry had when it started. *)
Definition drop_all_history_tables (db : database) : result database :=
  foldM (fun d row => drop_history_table (cht_live_table_name row) d)
        db (catmaid_history_table db).

End Synthesizer.

(** ** Derived notions used in the statements *)

(** The history row written for a new image. *)
Definition open_row (now : timestamptz) (new : row) : row :=
  Row (id new) (cells new) (Some (range (Some now) None)).

(** A history row whose interval is open ("valid_to = null"). *)
Definition row_is_open (r : row) : bool :=
  match sys_period r with
  | Some p => is_open p
  | None => false
  end.

(** The open history rows of identity [k] among [rs]. *)
Definition open_rows_of (k : Z) (rs : list row) : list row :=
  List.filter (fun r => (id r =? k) && row_is_open r) rs.

(** The rows stored in table [n] itself. *)
Definition rows_of (n : string) (db : database) : list row :=
  match tables db !! n with
  | Some t => rows t
  | None => []
  end.

Definition triggers_of (n : string) (db : database) : list trigger :=
  match tables db !! n with
  | Some t => triggers t
  | None => []
  end.

(** The entries of the registry under key [h], and those of live table [l]. *)
Definition entries_of (h : string) (db : database) : list history_entry :=
  List.filter (fun cht => String.eqb (cht_history_table_name cht) h)
              (catmaid_history_table db).

Definition entries_for (l : string) (db : database) : list history_entry :=
  List.filter (fun cht => String.eqb (cht_live_table_name cht) l)
              (catmaid_history_table db).

(** A statement or function call run as a transaction of its own: what is
    committed when it returns, the state before when it raises. *)
Definition atomically (body : database → result database) (db : database)
  : database :=
  match body db with
  | Ok db' => db'
  | Err _ => db
  end.

(** Live table [n] is versioned into [h]: its one trigger is the capture
    trigger as [create_history_table] writes it, and [n] is no part of the
    history structure. *)
Definition capture_trigger (n h : string) : trigger :=
  Trigger (trigger_name n) "update_history_of_row" ["sys_period"; h; "true"].

Definition capture_installed (n h : string) (db : database) : Prop :=
  ∃ t, tables db !! n = Some t
       ∧ triggers t = [capture_trigger n h]
       ∧ in_scope (tables db) h n = false.

(** The database with the triggers of [n] taken away. *)
Definition without_triggers (n : string) (db : database) : database :=
  set_tables (alter (set_triggers []) n (tables db)) db.

Definition has_primary_key (n : string) (db : database) : Prop :=
  ∃ t, tables db !! n = Some t ∧ primary_key t = true.

(** The capture of one affected row, seen on the rows of the history table
    alone: the two statements of [update_history_of_row] in order. *)
Definition capture_rows (now : timestamptz)
    (e : tg_op * option row * option row) (hs : list row) : result (list row) :=
  hs1 ← (if tg_op_eqb e.1.1 UPDATE || tg_op_eqb e.1.1 DELETE then
           old ← record_of "old" e.1.2; close_where_id now (id old) hs
         else Ok hs);
  (if tg_op_eqb e.1.1 INSERT || tg_op_eqb e.1.1 UPDATE then
     new ← record_of "new" e.2; Ok (hs1 ++ [open_row now new])
   else Ok hs1).

(** The history rows after one statement on live rows [live]. *)
Definition history_after (now : timestamptz) (m : mutation)
    (live hist : list row) : result (list row) :=
  foldM (fun hs e => capture_rows now e hs) hist (affected m live).

(** The live and history rows after the statements of one transaction. *)
Fixpoint captured (now : timestamptz) (ms : list mutation)
    (live hist : list row) : result (list row * list row) :=
  match ms with
  | [] => Ok (live, hist)
  | m :: ms' =>
      hist' ← history_after now m live hist;
      captured now ms' (mutate_rows m live) hist'
  end.

(** One autocommitted statement on [n] at a time, and the databases after
    each of them. *)
Fixpoint trace (n : string) (steps : list (timestamptz * mutation))
    (db : database) : list database :=
  match steps with
  | [] => []
  | s :: steps' =>
      let db' := atomically (execute s.1 n s.2) db in
      db' :: trace n steps' db'
  end.

(** Two catalogs with the same tables and the same inheritance links. *)
Definition same_shape (tabs tabs' : gmap string table) : Prop :=
  ∀ n, inherits <$> (tabs !! n) = inherits <$> (tabs' !! n).

(** Whether some row of [rs] has identity [k]. *)
Definition has_id (k : Z) (rs : list row) : bool :=
  existsb (fun r => id r =? k) rs.

(** I1 on the rows of a history table, with what ties it to the live rows:
    an identity that is not live has no open interval. *)
Definition interval_invariant (live hist : list row) : Prop :=
  ∀ k, (length (open_rows_of k hist) ≤ 1)%nat
       ∧ (has_id k live = false → open_rows_of k hist = []).

(** Nothing is stored below the history table. *)
Definition descendants_empty (h : string) (db : database) : Prop :=
  ∀ m, in_scope (tables db) h m = true → m ≠ h → rows_of m db = [].


(** ** Example databases *)

Definition widget_columns : list column :=
  [Column "id" true None; Column "name" false None].

Definition widget_history_columns : list column :=
  [Column "id" false None; Column "name" false None;
   Column "sys_period" true (Some "tstzrange(current_timestamp, null)")].

(** Scenario 1 of the specification: [widget(id, name)] with its history
    installed, holding the given live and history rows. *)
Definition widget_db (live hist : list row) : database :=
  Database
    (<["widget" := Table widget_columns [] true
                         [capture_trigger "widget" "widget_history"] live]>
       (<["widget_history" := Table widget_history_columns [] false [] hist]> ∅))
    (<["widget_history_sys_period" := "widget_history"]> ∅)
    [HistoryEntry "widget_history" "widget" 0].

(** [gadget] inherits from [widget]; no history exists yet. *)
Definition gadget_db : database :=
  Database
    (<["widget" := Table widget_columns [] true [] []]>
       (<["gadget" := Table widget_columns ["widget"] true [] []]> ∅))
    ∅ [].

(** What [create_history_table] and its statements never undo: a table
    stays, with the triggers it has, and a registry entry stays. *)
Definition extends (db db' : database) : Prop :=
  (∀ m t, tables db !! m = Some t →
          ∃ t', tables db' !! m = Some t' ∧ ∀ g, g ∈ triggers t → g ∈ triggers t')
  ∧ (∀ e, e ∈ catmaid_history_table db → e ∈ catmaid_history_table db').

(** A [quote_ident] that takes no word for a keyword, for the examples. *)
Definition no_keyword : string → bool := fun _ => false.

(** A live table with two parents. *)
Definition hybrid_db : database :=
  Database
    (<["widget" := Table widget_columns [] true [] []]>
       (<["gizmo" := Table widget_columns [] true [] []]>
          (<["hybrid" := Table widget_columns ["widget"; "gizmo"] true [] []]> ∅)))
    ∅ [].

(** [gadget_db] after [create_history_table('public', 'gadget')] at time 7:
    both [gadget] and its parent [widget] have their history. *)
Definition gadget_versioned_db : database :=
  atomically (create_history_table no_keyword 2 7 "public" "gadget" true true)
             gadget_db.

(** ** Further notions: names, catalog, registry and the migration *)

(** [translate(s, 'dquote', '')] with the one-character [from] of line 24: every
    double quote is deleted. *)
Definition strip_dquotes (s : string) : string :=
  translate s (String dquote EmptyString) EmptyString.

(** The string holds no double quote. *)
Fixpoint no_dquote (s : string) : bool :=
  match s with
  | EmptyString => true
  | String c s' => negb (Ascii.eqb c dquote) && no_dquote s'
  end.

(** No row of identity [k] is stored in the history structure [h]. *)
Definition no_history_of (h : string) (k : Z) (db : database) : Prop :=
  ∀ m t, tables db !! m = Some t → in_scope (tables db) h m = true →
         has_id k (rows t) = false.

(** What the column statements on the history table [h] leave as it is:
    the registry, the indexes, the inheritance links, the key and the
    triggers of every table, the emptiness of a table, and every table
    outside [h] and its descendants. *)
Definition ddl_step (h : string) (d d' : database) : Prop :=
  catmaid_history_table d' = catmaid_history_table d
  ∧ indexes d' = indexes d
  ∧ same_shape (tables d) (tables d')
  ∧ (∀ m t, tables d !! m = Some t →
            ∃ t', tables d' !! m = Some t'
                  ∧ primary_key t' = primary_key t
                  ∧ triggers t' = triggers t
                  ∧ (rows t = [] → rows t' = [])
                  ∧ (has_column "sys_period" t = true →
                     has_column "sys_period" t' = true))
  ∧ (∀ m, in_scope (tables d) h m = false → tables d' !! m = tables d !! m).

(** The registry holds its primary key. *)
Definition registry_keys_unique (db : database) : Prop :=
  ∀ k, (length (entries_of k db) ≤ 1)%nat.

(** Every parent a table names is a table. *)
Definition parents_exist (db : database) : Prop :=
  ∀ m t p, tables db !! m = Some t → p ∈ inherits t → is_Some (tables db !! p).

(** Every index is on a table that exists. *)
Definition indexes_on_tables (db : database) : Prop :=
  ∀ i h, indexes db !! i = Some h → is_Some (tables db !! h).

(** The registry is sound: every entry is under the history name of its
    live table, the history table is there with [sys_period], and the live
    table carries the capture trigger. *)
Definition registry_sound (keyword : string → bool) (db : database) : Prop :=
  ∀ e, e ∈ catmaid_history_table db →
    let l := cht_live_table_name e in
    let h := history_table_name keyword l in
    cht_history_table_name e = h
    ∧ (∃ ht, tables db !! h = Some ht ∧ has_column "sys_period" ht = true)
    ∧ capture_trigger l h ∈ triggers_of l db.

(** A relation name is the name of a table or of an index, not of both. *)
Definition names_disjoint (db : database) : Prop :=
  ∀ k, is_Some (tables db !! k) → indexes db !! k = None.

(** The tables the migration versions, lines 369-407. *)
Definition temp_versioned_table : list string :=
  ["broken_slice"; "cardinality_restriction"; "catmaid_userprofile";
   "catmaid_volume"; "change_request"; "class"; "class_class";
   "class_instance"; "class_instance_class_instance"; "client_data";
   "client_datastore"; "concept"; "connector"; "connector_class_instance";
   "data_view"; "data_view_type"; "location"; "log"; "message"; "overlay";
   "project"; "project_stack"; "region_of_interest";
   "region_of_interest_class_instance"; "relation"; "relation_instance";
   "restriction"; "review"; "reviewer_whitelist"; "stack";
   "stack_class_instance"; "suppressed_virtual_treenode"; "textlabel";
   "textlabel_location"; "treenode"; "treenode_class_instance";
   "treenode_connector"].

(** [SELECT create_history_table('public', t.name) FROM temp_versioned_table t],
    line 410: one call for each row, [create_triggers] and
    [copy_inheritance] at their defaults. *)
Definition add_initial_history_tables (keyword : string → bool) (depth : nat)
    (now : timestamptz) (db : database) : result database :=
  foldM (fun d name => create_history_table keyword depth now "public" name true true d)
        db temp_versioned_table.

(** [SELECT drop_all_history_tables()], line 417. *)
Definition remove_history_tables (keyword : string → bool) (db : database)
  : result database :=
  drop_all_history_tables keyword db.

(** [widget(id, name)] alone, with the given rows and no history. *)
Definition bare_widget_db (live : list row) : database :=
  Database (<["widget" := Table widget_columns [] true [] live]> ∅) ∅ [].

(** Scenario 1 with a second live table [gadget] that inherits from
    [widget] and has no history yet. *)
Definition gadget_on_widget_db : database :=
  Database
    (<["gadget" := Table widget_columns ["widget"] true [] []]>
       (tables (widget_db [] [])))
    (indexes (widget_db [] []))
    (catmaid_history_table (widget_db [] [])).

(** A database with the tables the migration lists, all alike. *)
Definition catmaid_db : database :=
  Database
    (list_to_map (map (fun n => (n, Table widget_columns [] true [] []))
                      temp_versioned_table))
    ∅ [].

(** [widget] with a capture trigger left on it and no registry entry, and
    [gadget] inheriting from it. *)
Definition stale_trigger_db : database :=
  Database
    (<["widget" := Table widget_columns [] true
                         [capture_trigger "widget" "widget_history"] []]>
       (<["gadget" := Table widget_columns ["widget"] true [] []]> ∅))
    ∅ [].

(** ** Basic facts about the result monad *)

Lemma bind_Ok {A B : Type} (m : result A) (f : A → result B) (b : B) :
  m ≫= f = Ok b ↔ ∃ a, m = Ok a ∧ f a = Ok b.
Proof.
  destruct m as [a|e]; simpl; split.
  - intros H. exists a. auto.
  - intros (a' & Ha & Hf). injection Ha as ->. exact Hf.
  - discriminate.
  - intros (a' & Ha & _). discriminate.
Qed.

Ltac inv_result :=
  repeat match goal with
         | H : _ ≫= _ = Ok _ |- _ =>
             let a := fresh "a" in
             let Ha := fresh "Ha" in
             apply bind_Ok in H as (a & Ha & H)
         | H : Ok _ = Ok _ |- _ => injection H as H; try subst
         | H : Err _ = Ok _ |- _ => discriminate H
         end.

Lemma mapR_Ok {A B : Type} (f : A → result B) (xs : list A) (ys : list B) :
  mapR f xs = Ok ys → Forall2 (fun x y => f x = Ok y) xs ys.
Proof.
  revert ys. induction xs as [|x xs IH]; intros ys H; simpl in H.
  - injection H as <-. constructor.
  - inv_result. constructor; auto.
Qed.


Lemma foldM_app {A S : Type} (body : S → A → result S) (s : S) (xs ys : list A) :
  foldM body s (xs ++ ys) = s' ← foldM body s xs; foldM body s' ys.
Proof.
  revert s. induction xs as [|x xs IH]; intros s; simpl; [done|].
  destruct (body s x); simpl; [apply IH | done].
Qed.

(** An invariant of the loop body is an invariant of the loop. *)
Lemma foldM_invariant {A S : Type} (P : S → Prop) (body : S → A → result S)
    (xs : list A) (s s' : S) :
  (∀ x t t', P t → body t x = Ok t' → P t') →
  P s → foldM body s xs = Ok s' → P s'.
Proof.
  intros Hstep. revert s. induction xs as [|x xs IH]; intros s Hs H; simpl in H.
  - by injection H as <-.
  - inv_result. eauto.
Qed.

(** ** Ranges *)

Lemma mk_tstzrange_closed (lo : option timestamptz) (now : timestamptz)
    (p : tstzrange) :
  mk_tstzrange lo (Some now) = Ok p → is_open p = false.
Proof.
  unfold mk_tstzrange. destruct lo as [l|]; [|by intros [= <-]].
  destruct (now <? l); [discriminate|].
  destruct (l =? now); by intros [= <-].
Qed.

Lemma mk_tstzrange_from (now : timestamptz) :
  mk_tstzrange (Some now) None = Ok (range (Some now) None).
Proof. reflexivity. Qed.

Lemma close_period_Ok (now : timestamptz) (r r' : row) :
  close_period now r = Ok r' →
  id r' = id r ∧ cells r' = cells r ∧ row_is_open r' = false.
Proof.
  unfold close_period. intros H. inv_result. simpl. repeat split.
  unfold row_is_open. simpl. eapply mk_tstzrange_closed; eauto.
Qed.

(** What the update does to the rows of one table: the rows keep their
    place and identity, those of [k] are closed, the others are as before. *)
Lemma close_where_id_Ok (now : timestamptz) (k : Z) (rs rs' : list row) :
  close_where_id now k rs = Ok rs' →
  Forall2 (fun r r' => id r' = id r
                       ∧ (id r = k → row_is_open r' = false)
                       ∧ (id r ≠ k → r' = r)) rs rs'.
Proof.
  intros H. apply mapR_Ok in H.
  eapply Forall2_impl; [exact H|]. intros r r' Hr. simpl in Hr.
  destruct (Z.eqb_spec (id r) k) as [Hk|Hk].
  - apply close_period_Ok in Hr as (? & ? & ?). repeat split; auto. lia.
  - injection Hr as <-. repeat split; auto. lia.
Qed.

Lemma close_where_id_length (now : timestamptz) (k : Z) (rs rs' : list row) :
  close_where_id now k rs = Ok rs' → length rs' = length rs.
Proof.
  intros H. apply close_where_id_Ok in H. symmetry. eapply Forall2_length; eauto.
Qed.

Lemma close_where_id_no_open (now : timestamptz) (k : Z) (rs rs' : list row) :
  close_where_id now k rs = Ok rs' → open_rows_of k rs' = [].
Proof.
  intros H. apply close_where_id_Ok in H.
  induction H as [|r r' rs rs' (Hid & Hc & Hn) _ IH]; [done|].
  unfold open_rows_of in *. simpl. rewrite IH.
  destruct (Z.eqb_spec (id r') k) as [Hk|Hk]; [|done].
  rewrite Hc; [done | lia].
Qed.

Lemma close_where_id_other (now : timestamptz) (k k' : Z) (rs rs' : list row) :
  close_where_id now k rs = Ok rs' → k' ≠ k →
  open_rows_of k' rs' = open_rows_of k' rs.
Proof.
  intros H Hne. apply close_where_id_Ok in H.
  induction H as [|r r' rs rs' (Hid & Hc & Hn) _ IH]; [done|].
  unfold open_rows_of in *. simpl. rewrite IH.
  destruct (Z.eq_dec (id r) k) as [Hk|Hk].
  - rewrite Hid.
    destruct (Z.eqb_spec (id r) k'); [lia | done].
  - by rewrite (Hn Hk).
Qed.

Lemma open_rows_of_app (k : Z) (rs rs' : list row) :
  open_rows_of k (rs ++ rs') = open_rows_of k rs ++ open_rows_of k rs'.
Proof. unfold open_rows_of. apply List.filter_app. Qed.

(** ** Statements over a table and its descendants *)

Lemma for_tables_list (sel : string → bool) (f : table → result table)
    (l : list (string * table)) (acc tabs' : gmap string table) :
  NoDup l.*1 →
  foldM (fun acc nt =>
           if sel nt.1 then t' ← f nt.2; Ok (<[nt.1 := t']> acc) else Ok acc)
        acc l = Ok tabs' →
  ∀ n, (n ∉ l.*1 → tabs' !! n = acc !! n)
       ∧ (∀ t, (n, t) ∈ l →
               if sel n then ∃ t', f t = Ok t' ∧ tabs' !! n = Some t'
               else tabs' !! n = acc !! n).
Proof.
  revert acc. induction l as [|[m t0] l IH]; intros acc Hnd H n; simpl in H.
  - injection H as <-. split; [done|]. intros t Ht. by apply elem_of_nil in Ht.
  - apply NoDup_cons in Hnd as [Hm Hnd]. simpl in Hm.
    apply bind_Ok in H as (acc1 & Hacc1 & H). simpl in Hacc1.
    destruct (IH acc1 Hnd H n) as [IH1 IH2].
    assert (Hne : n ≠ m → acc1 !! n = acc !! n).
    { intros Hnm. destruct (sel m); inv_result; [|done].
      by rewrite lookup_insert_ne. }
    split.
    + intros Hn. simpl in Hn. apply not_elem_of_cons in Hn as [Hnm Hn].
      rewrite IH1 by done. by apply Hne.
    + intros t Ht. apply elem_of_cons in Ht as [Ht|Ht].
      * injection Ht as -> ->. rewrite (IH1 Hm).
        destruct (sel m); inv_result; [|done].
        eexists. split; [eassumption|]. by rewrite lookup_insert_eq.
      * specialize (IH2 t Ht). destruct (sel n); [done|].
        rewrite IH2. apply Hne. intros ->. apply Hm.
        apply list_elem_of_fmap. by exists (m, t).
Qed.

(** The tables after the statement: a selected table is the one the
    statement makes of it, any other table is as before. *)
Lemma for_tables_Ok (sel : string → bool) (f : table → result table)
    (tabs tabs' : gmap string table) :
  for_tables sel f tabs = Ok tabs' →
  ∀ n, match tabs !! n with
       | None => tabs' !! n = None
       | Some t => if sel n then ∃ t', f t = Ok t' ∧ tabs' !! n = Some t'
                   else tabs' !! n = Some t
       end.
Proof.
  intros H n. unfold for_tables in H.
  destruct (for_tables_list sel f _ _ _ (NoDup_fst_map_to_list tabs) H n)
    as [H1 H2].
  destruct (tabs !! n) as [t|] eqn:Hn.
  - specialize (H2 t). rewrite elem_of_map_to_list in H2. specialize (H2 Hn).
    destruct (sel n); [done|]. by rewrite H2.
  - rewrite H1; [done|]. intros Hin. apply list_elem_of_fmap in Hin as [[m t] [-> Hin]].
    apply elem_of_map_to_list in Hin. simpl in Hn. congruence.
Qed.

Lemma for_tables_total (sel : string → bool) (f : table → result table)
    (tabs : gmap string table) :
  (∀ n t, tabs !! n = Some t → sel n = true → ∃ t', f t = Ok t') →
  ∃ tabs', for_tables sel f tabs = Ok tabs'.
Proof.
  intros H. unfold for_tables.
  assert (Hl : ∀ n t, (n, t) ∈ map_to_list tabs → sel n = true → ∃ t', f t = Ok t').
  { intros n t Hin. apply elem_of_map_to_list in Hin. eauto. }
  clear H. generalize tabs at 1. induction (map_to_list tabs) as [|[m t0] l IH];
    intros acc; simpl; [eauto|].
  destruct (sel m) eqn:Hsel.
  - destruct (Hl m t0) as [t' Ht']; [left | done |]. rewrite Ht'. simpl.
    apply IH. intros n t Hin. apply Hl. by right.
  - simpl. apply IH. intros n t Hin. apply Hl. by right.
Qed.

Lemma same_shape_refl (tabs : gmap string table) : same_shape tabs tabs.
Proof. done. Qed.

Lemma same_shape_trans (t1 t2 t3 : gmap string table) :
  same_shape t1 t2 → same_shape t2 t3 → same_shape t1 t3.
Proof. intros H1 H2 n. by rewrite H1. Qed.

Lemma same_shape_size (tabs tabs' : gmap string table) :
  same_shape tabs tabs' → size tabs = size tabs'.
Proof.
  intros H. rewrite <- !size_dom. f_equal. apply set_eq. intros n.
  rewrite !elem_of_dom. specialize (H n).
  destruct (tabs !! n), (tabs' !! n); simpl in H; try discriminate;
    split; intros [? ?]; try discriminate; eauto.
Qed.

Lemma inherits_from_shape (fuel : nat) (tabs tabs' : gmap string table)
    (c a : string) :
  same_shape tabs tabs' →
  inherits_from fuel tabs c a = inherits_from fuel tabs' c a.
Proof.
  intros H. revert c. induction fuel as [|fuel IH]; intros c; simpl; [done|].
  f_equal. specialize (H c).
  destruct (tabs !! c) as [t|], (tabs' !! c) as [t'|]; simpl in H;
    try discriminate; [|done].
  injection H as ->. induction (inherits t') as [|p ps IHp]; simpl; [done|].
  by rewrite IH, IHp.
Qed.

Lemma in_scope_shape (tabs tabs' : gmap string table) (rel n : string) :
  same_shape tabs tabs' → in_scope tabs rel n = in_scope tabs' rel n.
Proof.
  intros H. unfold in_scope. rewrite (same_shape_size _ _ H).
  by apply inherits_from_shape.
Qed.

Lemma in_scope_self (tabs : gmap string table) (rel : string) :
  in_scope tabs rel rel = true.
Proof.
  unfold in_scope. destruct (size tabs); simpl; by rewrite bool_decide_eq_true_2.
Qed.

Lemma same_shape_insert (tabs : gmap string table) (n : string) (t t' : table) :
  tabs !! n = Some t → inherits t' = inherits t →
  same_shape tabs (<[n := t']> tabs).
Proof.
  intros Hn Hi m. destruct (decide (n = m)) as [<-|Hne].
  - rewrite lookup_insert_eq, Hn. simpl. by rewrite Hi.
  - by rewrite lookup_insert_ne.
Qed.

Lemma for_tables_shape (sel : string → bool) (f : table → result table)
    (tabs tabs' : gmap string table) :
  (∀ t t', f t = Ok t' → inherits t' = inherits t) →
  for_tables sel f tabs = Ok tabs' → same_shape tabs tabs'.
Proof.
  intros Hf H n. pose proof (for_tables_Ok _ _ _ _ H n) as Hn.
  destruct (tabs !! n) as [t|]; [|by rewrite Hn].
  destruct (sel n); [|by rewrite Hn].
  destruct Hn as (t' & Ht' & ->). simpl. by rewrite (Hf _ _ Ht').
Qed.

(** ** The two statements of the capture handler *)

Lemma update_sys_period_Ok (now : timestamptz) (h col : string) (k : Z)
    (db db' : database) :
  update_sys_period now h col k db = Ok db' →
  indexes db' = indexes db
  ∧ catmaid_history_table db' = catmaid_history_table db
  ∧ is_Some (tables db !! h)
  ∧ ∀ n, match tables db !! n with
         | None => tables db' !! n = None
         | Some t =>
             if in_scope (tables db) h n
             then ∃ rs, close_where_id now k (rows t) = Ok rs
                        ∧ tables db' !! n = Some (set_rows rs t)
             else tables db' !! n = Some t
         end.
Proof.
  unfold update_sys_period. intros H.
  destruct (tables db !! h) as [t|] eqn:Hh; [|discriminate].
  destruct (negb (has_column "sys_period" t)); [discriminate|].
  destruct (negb (col =? "sys_period")%string); [discriminate|].
  apply bind_Ok in H as (tabs & Htabs & H). injection H as <-. simpl.
  repeat split; [eauto|]. intros n.
  pose proof (for_tables_Ok _ _ _ _ Htabs n) as Hn.
  destruct (tables db !! n) as [t0|]; [|done].
  destruct (in_scope (tables db) h n); [|done].
  destruct Hn as (t' & Ht' & Hl). inv_result. eauto.
Qed.

Lemma update_sys_period_shape (now : timestamptz) (h col : string) (k : Z)
    (db db' : database) :
  update_sys_period now h col k db = Ok db' →
  same_shape (tables db) (tables db').
Proof.
  intros H n. apply update_sys_period_Ok in H as (_ & _ & _ & H).
  specialize (H n). destruct (tables db !! n) as [t|]; [|by rewrite H].
  destruct (in_scope (tables db) h n); [|by rewrite H].
  destruct H as (rs & _ & ->). done.
Qed.

Lemma insert_row_Ok (n : string) (r : row) (db db' : database) :
  insert_row n r db = Ok db' →
  ∃ t, tables db !! n = Some t
       ∧ (primary_key t = true → unique_ids (rows t ++ [r]) = true)
       ∧ db' = set_tables (<[n := set_rows (rows t ++ [r]) t]> (tables db)) db.
Proof.
  unfold insert_row. intros H.
  destruct (tables db !! n) as [t|]; [|discriminate].
  apply bind_Ok in H as (t' & Ht' & H). injection H as <-.
  unfold check_primary_key in Ht'. simpl in Ht'.
  destruct (primary_key t) eqn:Hpk; simpl in Ht'.
  - destruct (unique_ids (rows t ++ [r])) eqn:Hu; simpl in Ht'; [|discriminate].
    injection Ht' as <-. exists t. auto.
  - injection Ht' as <-. exists t. repeat split. congruence.
Qed.

Lemma insert_history_row_Ok (now : timestamptz) (h col live : string)
    (new : row) (db db' : database) :
  insert_history_row now h col live new db = Ok db' →
  ∃ ht, tables db !! h = Some ht
        ∧ db' = set_tables
                  (<[h := set_rows (rows ht ++ [open_row now new]) ht]> (tables db))
                  db.
Proof.
  unfold insert_history_row. intros H.
  destruct (tables db !! live) as [lt|]; [|discriminate].
  destruct (tables db !! h) as [ht|] eqn:Hh; [|discriminate].
  destruct (List.find _ _); [discriminate|].
  destruct (_ || _); [discriminate|].
  simpl in H. apply insert_row_Ok in H as (t & Ht & _ & ->).
  rewrite Hh in Ht. injection Ht as <-. eauto.
Qed.

(** ** What the capture handler does *)

(** The handler hands back NULL, and touches neither the registry, nor the
    indexes, nor any table outside the history table named by [TG_ARGV[1]]
    and its descendants. *)
Lemma update_history_of_row_frame (now : timestamptz) (tg : trigger_data)
    (db db' : database) (ret : option row) :
  update_history_of_row now tg db = Ok (db', ret) →
  ret = None
  ∧ indexes db' = indexes db
  ∧ catmaid_history_table db' = catmaid_history_table db
  ∧ same_shape (tables db) (tables db')
  ∧ ∀ n, in_scope (tables db) (argv tg 1) n = false →
         tables db' !! n = tables db !! n.
Proof.
  unfold update_history_of_row. intros H.
  destruct (negb (TG_NARGS tg =? 3)%nat); [discriminate|].
  apply bind_Ok in H as (db1 & H1 & H). apply bind_Ok in H as (db2 & H2 & H).
  injection H as <- <-.
  assert (F1 : indexes db1 = indexes db
               ∧ catmaid_history_table db1 = catmaid_history_table db
               ∧ same_shape (tables db) (tables db1)
               ∧ ∀ n, in_scope (tables db) (argv tg 1) n = false →
                      tables db1 !! n = tables db !! n).
  { destruct (tg_op_eqb (TG_OP tg) UPDATE || tg_op_eqb (TG_OP tg) DELETE).
    - apply bind_Ok in H1 as (old & _ & H1).
      pose proof (update_sys_period_shape _ _ _ _ _ _ H1) as Hs.
      apply update_sys_period_Ok in H1 as (Hi & Hc & _ & Ht).
      repeat split; auto. intros n Hn. specialize (Ht n). rewrite Hn in Ht.
      by destruct (tables db !! n).
    - injection H1 as <-. repeat split; auto using same_shape_refl. }
  destruct F1 as (Hi & Hc & Hs & Hf).
  destruct (tg_op_eqb (TG_OP tg) INSERT || tg_op_eqb (TG_OP tg) UPDATE).
  - apply bind_Ok in H2 as (new & _ & H2).
    apply insert_history_row_Ok in H2 as (ht & Hht & ->). simpl.
    repeat split; auto.
    + eapply same_shape_trans; [exact Hs|].
      eapply same_shape_insert; [exact Hht | done].
    + intros n Hn. rewrite lookup_insert_ne; [by apply Hf|].
      intros <-. by rewrite in_scope_self in Hn.
  - injection H2 as <-. repeat split; auto.
Qed.

(** The rows of the history table itself after the handler has run. *)
Lemma update_history_of_row_rows (now : timestamptz) (tg : trigger_data)
    (db db' : database) (ret : option row) :
  update_history_of_row now tg db = Ok (db', ret) →
  match TG_OP tg with
  | INSERT =>
      ∃ new, NEW tg = Some new
             ∧ rows_of (argv tg 1) db'
               = rows_of (argv tg 1) db ++ [open_row now new]
  | UPDATE =>
      ∃ old new rs,
        OLD tg = Some old ∧ NEW tg = Some new
        ∧ close_where_id now (id old) (rows_of (argv tg 1) db) = Ok rs
        ∧ rows_of (argv tg 1) db' = rs ++ [open_row now new]
  | DELETE =>
      ∃ old rs,
        OLD tg = Some old
        ∧ close_where_id now (id old) (rows_of (argv tg 1) db) = Ok rs
        ∧ rows_of (argv tg 1) db' = rs
  end.
Proof.
  unfold update_history_of_row. intros H.
  destruct (negb (TG_NARGS tg =? 3)%nat); [discriminate|].
  apply bind_Ok in H as (db1 & H1 & H). apply bind_Ok in H as (db2 & H2 & H).
  injection H as <- <-. set (h := argv tg 1) in *.
  assert (Hclose : ∀ old, update_sys_period now h (argv tg 0) (id old) db = Ok db1 →
            ∃ rs, close_where_id now (id old) (rows_of h db) = Ok rs
                  ∧ rows_of h db1 = rs).
  { intros old Hu. apply update_sys_period_Ok in Hu as (_ & _ & [t Ht] & Hu).
    specialize (Hu h). rewrite Ht, in_scope_self in Hu.
    destruct Hu as (rs & Hrs & Hl). exists rs. unfold rows_of.
    by rewrite Ht, Hl. }
  assert (Hins : ∀ d new, insert_history_row now h (argv tg 0) (TG_TABLE_NAME tg)
                            new d = Ok db2 →
            rows_of h db2 = rows_of h d ++ [open_row now new]).
  { intros d new Hi. apply insert_history_row_Ok in Hi as (ht & Hht & ->).
    unfold rows_of. simpl. by rewrite lookup_insert_eq, Hht. }
  destruct (TG_OP tg); simpl in H1, H2.
  - injection H1 as <-. apply bind_Ok in H2 as (new & Hnew & H2).
    destruct (NEW tg) as [new'|]; [|discriminate]. injection Hnew as ->.
    exists new. split; [done|]. by apply Hins.
  - apply bind_Ok in H1 as (old & Hold & H1).
    apply bind_Ok in H2 as (new & Hnew & H2).
    destruct (OLD tg) as [old'|]; [|discriminate]. injection Hold as ->.
    destruct (NEW tg) as [new'|]; [|discriminate]. injection Hnew as ->.
    destruct (Hclose _ H1) as (rs & Hrs & Hr1).
    exists old, new, rs. repeat split; auto.
    rewrite (Hins _ _ H2). by rewrite Hr1.
  - apply bind_Ok in H1 as (old & Hold & H1). injection H2 as <-.
    destruct (OLD tg) as [old'|]; [|discriminate]. injection Hold as ->.
    destruct (Hclose _ H1) as (rs & Hrs & Hr1). eauto.
Qed.

Lemma update_history_of_row_capture_rows (now : timestamptz) (op : tg_op)
    (n : string) (args : list string) (old new : option row)
    (d d' : database) (ret : option row) :
  update_history_of_row now (TriggerData op n args old new) d = Ok (d', ret) →
  capture_rows now (op, old, new) (rows_of (nth 1 args EmptyString) d)
  = Ok (rows_of (nth 1 args EmptyString) d').
Proof.
  intros H. apply update_history_of_row_rows in H. unfold argv in H. simpl in H.
  unfold capture_rows. destruct op; simpl.
  - destruct H as (nw & -> & ->). done.
  - destruct H as (o & nw & rs & -> & -> & Hrs & ->). simpl. by rewrite Hrs.
  - destruct H as (o & rs & -> & Hrs & ->). simpl. by rewrite Hrs.
Qed.

(** ** When the handler returns *)





(** ** Statements on a versioned live table *)

Lemma check_primary_key_Ok (n : string) (t t' : table) :
  check_primary_key n t = Ok t' →
  t' = t ∧ (primary_key t = true → unique_ids (rows t) = true).
Proof.
  unfold check_primary_key. destruct (primary_key t); simpl.
  - destruct (unique_ids (rows t)); simpl; [|discriminate]. by intros [= <-].
  - intros [= <-]. split; [done | discriminate].
Qed.

Lemma fire_one (now : timestamptz) (n h : string) (op : tg_op)
    (old new : option row) (d d' : database) :
  capture_installed n h d →
  fire_triggers now n op old new d = Ok d' →
  capture_installed n h d'
  ∧ tables d' !! n = tables d !! n
  ∧ capture_rows now (op, old, new) (rows_of h d) = Ok (rows_of h d').
Proof.
  intros (t & Ht & Htg & Hsc) H. unfold fire_triggers in H.
  rewrite Ht, Htg in H. simpl in H.
  apply bind_Ok in H as (d1 & H & Hd1). injection Hd1 as <-.
  apply bind_Ok in H as ([d2 ret] & H & Hd2). injection Hd2 as <-. simpl.
  unfold call_trigger_function in H. simpl in H.
  pose proof (update_history_of_row_capture_rows _ _ _ _ _ _ _ _ _ H) as Hrows.
  apply update_history_of_row_frame in H as (_ & _ & _ & Hshape & Hframe).
  unfold argv in Hframe. simpl in Hframe, Hrows.
  assert (Hn : tables d2 !! n = tables d !! n) by by apply Hframe.
  split_and!; [|done|done].
  exists t. rewrite Hn. split_and!; [done..|].
  by rewrite <- (in_scope_shape _ _ _ _ Hshape).
Qed.

Lemma fire_all (now : timestamptz) (n h : string)
    (es : list (tg_op * option row * option row)) (d d' : database) :
  capture_installed n h d →
  foldM (fun d e => fire_triggers now n e.1.1 e.1.2 e.2 d) d es = Ok d' →
  capture_installed n h d'
  ∧ tables d' !! n = tables d !! n
  ∧ foldM (fun hs e => capture_rows now e hs) (rows_of h d) es
    = Ok (rows_of h d').
Proof.
  revert d. induction es as [|[[op old] new] es IH]; intros d Hc H; simpl in H.
  - injection H as <-. done.
  - apply bind_Ok in H as (d1 & H1 & H). simpl in H1.
    destruct (fire_one _ _ _ _ _ _ _ _ Hc H1) as (Hc1 & Hn1 & Hr1).
    destruct (IH _ Hc1 H) as (Hc' & Hn' & Hr').
    split_and!; [done | congruence |]. simpl. rewrite Hr1. simpl. exact Hr'.
Qed.

Lemma capture_installed_neq (n h : string) (db : database) :
  capture_installed n h db → h ≠ n.
Proof. intros (t & _ & _ & Hsc) ->. by rewrite in_scope_self in Hsc. Qed.

(** One statement on a versioned table: the live rows change as the
    statement says, and the history rows as the capture of each affected
    row says. *)
Lemma execute_captured (now : timestamptz) (n h : string) (m : mutation)
    (db db' : database) :
  capture_installed n h db →
  execute now n m db = Ok db' →
  capture_installed n h db'
  ∧ rows_of n db' = mutate_rows m (rows_of n db)
  ∧ history_after now m (rows_of n db) (rows_of h db) = Ok (rows_of h db')
  ∧ (has_primary_key n db →
     has_primary_key n db' ∧ unique_ids (rows_of n db') = true).
Proof.
  intros Hc H. pose proof (capture_installed_neq _ _ _ Hc) as Hne.
  destruct Hc as (t & Ht & Htg & Hsc). unfold execute in H. rewrite Ht in H.
  apply bind_Ok in H as (t' & Hpk & H).
  apply check_primary_key_Ok in Hpk as [-> Hpk]. simpl in Hpk.
  set (mid := set_tables _ db) in H.
  assert (Hmid : capture_installed n h mid).
  { exists (set_rows (mutate_rows m (rows t)) t). subst mid. simpl.
    rewrite lookup_insert_eq. split_and!; [done..|].
    rewrite <- (in_scope_shape (tables db)); [done|].
    by eapply same_shape_insert. }
  destruct (fire_all _ _ _ _ _ _ Hmid H) as (Hc' & Hn' & Hr').
  assert (Hrn : rows_of n db' = mutate_rows m (rows_of n db)).
  { unfold rows_of. rewrite Hn', Ht. subst mid. simpl.
    by rewrite lookup_insert_eq. }
  split_and!; [done | done | |].
  - unfold history_after.
    replace (rows_of n db) with (rows t) by (unfold rows_of; by rewrite Ht).
    replace (rows_of h db) with (rows_of h mid); [done|].
    unfold rows_of. subst mid. simpl. by rewrite lookup_insert_ne.
  - intros (t0 & Ht0 & Hpk0). rewrite Ht in Ht0. injection Ht0 as <-. split.
    + exists (set_rows (mutate_rows m (rows t)) t). rewrite Hn'. subst mid.
      simpl. by rewrite lookup_insert_eq.
    + rewrite Hrn. unfold rows_of. rewrite Ht. auto.
Qed.

(** ** Identities of the live rows and the primary key *)

Ltac case_eqb :=
  repeat match goal with
         | |- context [Z.eqb ?a ?b] => destruct (Z.eqb_spec a b)
         | H : context [Z.eqb ?a ?b] |- _ => destruct (Z.eqb_spec a b)
         end.

Lemma unique_ids_cons (r : row) (rs : list row) :
  unique_ids (r :: rs) = negb (has_id (id r) rs) && unique_ids rs.
Proof. reflexivity. Qed.

Lemma has_id_app (k : Z) (rs rs' : list row) :
  has_id k (rs ++ rs') = has_id k rs || has_id k rs'.
Proof. apply existsb_app. Qed.

Lemma unique_ids_snoc (r : row) (rs : list row) :
  unique_ids (rs ++ [r]) = true → has_id (id r) rs = false.
Proof.
  induction rs as [|r0 rs IH]; [done|]. simpl app. rewrite unique_ids_cons.
  intros H. apply andb_prop in H as [H1 H2]. apply negb_true_iff in H1.
  rewrite has_id_app in H1. apply orb_false_elim in H1 as [_ H1].
  simpl in H1. simpl. rewrite (IH H2). case_eqb; try done; try lia. 
Qed.

Lemma has_id_replace (k k' : Z) (new : row) (rs : list row) :
  has_id k' (map (fun r => if id r =? k then new else r) rs)
  = (has_id k' rs && negb (k' =? k)) || (has_id k rs && (id new =? k')).
Proof.
  induction rs as [|r rs IH]; [done|]. simpl. rewrite IH.
  destruct (has_id k' rs), (has_id k rs); case_eqb; simpl; try done; try lia.
Qed.

Lemma filter_no_id (k : Z) (rs : list row) :
  has_id k rs = false → List.filter (fun r => id r =? k) rs = [].
Proof.
  induction rs as [|r rs IH]; [done|]. simpl. intros H.
  apply orb_false_elim in H as [-> H]. auto.
Qed.

Lemma replace_no_id (k : Z) (new : row) (rs : list row) :
  has_id k rs = false → map (fun r => if id r =? k then new else r) rs = rs.
Proof.
  induction rs as [|r rs IH]; [done|]. simpl. intros H.
  apply orb_false_elim in H as [-> H]. by rewrite IH.
Qed.

Lemma unique_replace_one (k : Z) (new : row) (rs : list row) :
  unique_ids (map (fun r => if id r =? k then new else r) rs) = true →
  has_id k rs = true →
  ∃ old, List.filter (fun r => id r =? k) rs = [old] ∧ id old = k.
Proof.
  induction rs as [|r rs IH]; [done|]. simpl map. rewrite unique_ids_cons.
  intros H Hk. apply andb_prop in H as [H1 H2]. apply negb_true_iff in H1.
  rewrite has_id_replace in H1. simpl in Hk |- *.
  destruct (Z.eqb_spec (id r) k) as [Hr|Hr].
  - rewrite Z.eqb_refl, andb_true_r in H1. apply orb_false_elim in H1 as [_ H1].
    rewrite (filter_no_id _ _ H1). eauto.
  - simpl in Hk. auto.
Qed.

Lemma unique_replace_fresh (k : Z) (new : row) (rs : list row) :
  unique_ids (map (fun r => if id r =? k then new else r) rs) = true →
  has_id k rs = true → id new ≠ k → has_id (id new) rs = false.
Proof.
  induction rs as [|r rs IH]; [done|]. simpl map. rewrite unique_ids_cons.
  intros H Hk Hne. apply andb_prop in H as [H1 H2]. apply negb_true_iff in H1.
  rewrite has_id_replace in H1. simpl in Hk |- *.
  destruct (Z.eqb_spec (id r) k) as [Hr|Hr].
  - rewrite Z.eqb_refl, andb_true_r in H1. apply orb_false_elim in H1 as [H1 _].
    apply andb_false_iff in H1 as [H1|H1].
    + rewrite H1. case_eqb; try done; lia.
    + apply negb_false_iff in H1. case_eqb; lia.
  - simpl in Hk. rewrite (IH H2 Hk Hne). rewrite Hk in H1. simpl in H1.
    apply orb_false_elim in H1 as [_ H1]. case_eqb; try done; lia.
Qed.

Lemma has_id_remove (k k' : Z) (rs : list row) :
  has_id k' (List.filter (fun r => negb (id r =? k)) rs)
  = has_id k' rs && negb (k' =? k).
Proof.
  induction rs as [|r rs IH]; [done|]. simpl.
  destruct (Z.eqb_spec (id r) k) as [Hr|Hr]; simpl; rewrite IH;
    destruct (has_id k' rs); case_eqb; simpl; try done; lia.
Qed.

(** ** The interval invariant, on rows *)

Lemma open_rows_of_open_row (now : timestamptz) (k : Z) (new : row) :
  open_rows_of k [open_row now new]
  = if id new =? k then [open_row now new] else [].
Proof. unfold open_rows_of. simpl. by destruct (id new =? k). Qed.

Lemma capture_rows_insert (now : timestamptz) (new : row) (hs : list row) :
  capture_rows now (INSERT, None, Some new) hs = Ok (hs ++ [open_row now new]).
Proof. reflexivity. Qed.

Lemma capture_rows_update (now : timestamptz) (old new : row) (hs hs' : list row) :
  capture_rows now (UPDATE, Some old, Some new) hs = Ok hs' →
  ∃ rs, close_where_id now (id old) hs = Ok rs ∧ hs' = rs ++ [open_row now new].
Proof.
  unfold capture_rows. simpl. intros H.
  apply bind_Ok in H as (rs & Hrs & H). injection H as <-. eauto.
Qed.

Lemma capture_rows_delete (now : timestamptz) (old : row) (hs hs' : list row) :
  capture_rows now (DELETE, Some old, None) hs = Ok hs' →
  close_where_id now (id old) hs = Ok hs'.
Proof.
  unfold capture_rows. simpl. intros H.
  apply bind_Ok in H as (rs & Hrs & H). by injection H as <-.
Qed.

(** Deleting every row of identity [k]: nothing of [k] stays open, and the
    rows of other identities are as before. *)
Lemma capture_rows_delete_all (now : timestamptz) (k : Z) (olds hs hs' : list row) :
  Forall (fun r => id r = k) olds →
  foldM (fun hs e => capture_rows now e hs) hs
        (map (fun r => (DELETE, Some r, None)) olds) = Ok hs' →
  (olds ≠ [] → open_rows_of k hs' = [])
  ∧ (olds = [] → hs' = hs)
  ∧ ∀ k', k' ≠ k → open_rows_of k' hs' = open_rows_of k' hs.
Proof.
  intros Hk. revert hs. induction Hk as [|old olds Hold _ IH]; intros hs H; simpl in H.
  - injection H as <-. done.
  - apply bind_Ok in H as (hs1 & H1 & H). apply capture_rows_delete in H1.
    rewrite Hold in H1. destruct (IH _ H) as (IH1 & IH2 & IH3).
    split_and!; [|done|].
    + intros _. destruct olds as [|o olds'].
      * rewrite IH2 by done. eapply close_where_id_no_open; eauto.
      * by apply IH1.
    + intros k' Hk'. rewrite IH3 by done. eapply close_where_id_other; eauto.
Qed.

Lemma filter_id_Forall (k : Z) (rs : list row) :
  Forall (fun r => id r = k) (List.filter (fun r => id r =? k) rs).
Proof.
  apply Forall_forall. intros r Hr. apply list_elem_of_In, filter_In in Hr as [_ Hr].
  lia.
Qed.

Lemma interval_invariant_step (now : timestamptz) (m : mutation)
    (live hist hist' : list row) :
  interval_invariant live hist →
  unique_ids (mutate_rows m live) = true →
  history_after now m live hist = Ok hist' →
  interval_invariant (mutate_rows m live) hist'.
Proof.
  intros Hinv Hu H. unfold history_after in H. destruct m as [new|k new|k]; simpl in *.
  - (* Create *)
    injection H as <-.
    apply unique_ids_snoc in Hu. intros k.
    rewrite open_rows_of_app, open_rows_of_open_row, has_id_app.
    destruct (Hinv k) as [H1 H2]. simpl.
    destruct (Z.eqb_spec (id new) k) as [<-|Hne].
    + rewrite (H2 Hu). simpl. rewrite orb_true_r. split; [lia | done].
    + rewrite app_nil_r. simpl. rewrite orb_false_r. done.
  - (* Modify *)
    destruct (has_id k live) eqn:Hk.
    + destruct (unique_replace_one _ _ _ Hu Hk) as (old & Hold & Hidold).
      rewrite Hold in H. simpl in H.
      apply bind_Ok in H as (hs & Hhs & H). injection H as <-.
      apply capture_rows_update in Hhs as (rs & Hrs & ->). rewrite Hidold in Hrs.
      intros k'. rewrite open_rows_of_app, open_rows_of_open_row, has_id_replace, Hk.
      destruct (Hinv k') as [H1 H2]. simpl.
      destruct (Z.eqb_spec (id new) k') as [<-|Hne].
      * rewrite orb_true_r. split; [|done].
        destruct (Z.eq_dec (id new) k) as [->|Hnk].
        -- rewrite (close_where_id_no_open _ _ _ _ Hrs). simpl. lia.
        -- rewrite (close_where_id_other _ _ _ _ _ Hrs Hnk).
           destruct (Hinv (id new)) as [_ H3].
           rewrite H3; [simpl; lia|]. by eapply unique_replace_fresh.
      * rewrite app_nil_r, orb_false_r.
        destruct (Z.eq_dec k' k) as [->|Hnk].
        -- rewrite (close_where_id_no_open _ _ _ _ Hrs). simpl. split; [lia|done].
        -- rewrite (close_where_id_other _ _ _ _ _ Hrs Hnk).
           split; [done|]. intros Hh. apply H2.
           apply andb_false_iff in Hh as [Hh|Hh]; [done|].
           apply negb_false_iff in Hh. lia.
    + rewrite (filter_no_id _ _ Hk) in H. simpl in H. injection H as <-.
      by rewrite (replace_no_id _ _ _ Hk).
  - (* Remove *)
    destruct (capture_rows_delete_all _ _ _ _ _ (filter_id_Forall k live) H)
      as (H1 & H2 & H3).
    intros k'. rewrite has_id_remove. destruct (Hinv k') as [Hi1 Hi2].
    destruct (Z.eq_dec k' k) as [->|Hnk].
    + destruct (List.filter (fun r => id r =? k) live) as [|o os] eqn:Hf.
      * rewrite H2 by done. split; [done|]. intros _. apply Hi2.
        destruct (has_id k live) eqn:Hk; [|done].
        apply existsb_exists in Hk as (r & Hr & Hrk).
        assert (Hin : In r (List.filter (fun r => id r =? k) live))
          by (apply filter_In; auto).
        rewrite Hf in Hin. destruct Hin.
      * rewrite H1 by done. simpl. split; [lia|done].
    + rewrite H3 by done. split; [done|]. intros Hh. apply Hi2.
      apply andb_false_iff in Hh as [Hh|Hh]; [done|].
      apply negb_false_iff in Hh. lia.
Qed.

(** ** The invariant along a run *)

Lemma interval_invariant_nil (live : list row) : interval_invariant live [].
Proof. intros k. split; [simpl; lia | done]. Qed.

Lemma atomically_execute_invariant (now : timestamptz) (n h : string)
    (m : mutation) (db : database) :
  capture_installed n h db → has_primary_key n db →
  interval_invariant (rows_of n db) (rows_of h db) →
  let db' := atomically (execute now n m) db in
  capture_installed n h db' ∧ has_primary_key n db'
  ∧ interval_invariant (rows_of n db') (rows_of h db').
Proof.
  intros Hc Hpk Hinv. unfold atomically.
  destruct (execute now n m db) as [d|e] eqn:He; simpl; [|done].
  destruct (execute_captured _ _ _ _ _ _ Hc He) as (Hc' & Hrn & Hh & Hpk').
  destruct (Hpk' Hpk) as [Hpk'' Hu]. split_and!; [done..|].
  rewrite Hrn. eapply interval_invariant_step; eauto. by rewrite <- Hrn.
Qed.

Lemma trace_invariant (n h : string) (steps : list (timestamptz * mutation))
    (db : database) :
  capture_installed n h db → has_primary_key n db →
  interval_invariant (rows_of n db) (rows_of h db) →
  Forall (fun d => interval_invariant (rows_of n d) (rows_of h d))
         (trace n steps db).
Proof.
  revert db. induction steps as [|[now m] steps IH]; intros db Hc Hpk Hinv;
    simpl; [constructor|].
  destruct (atomically_execute_invariant now n h m db Hc Hpk Hinv)
    as (Hc' & Hpk' & Hinv').
  constructor; [done|]. by apply IH.
Qed.

(** ** The descendants of the history table *)

Lemma update_sys_period_keeps_empty (now : timestamptz) (h col : string) (k : Z)
    (db db' : database) (m : string) :
  update_sys_period now h col k db = Ok db' →
  rows_of m db = [] → rows_of m db' = [].
Proof.
  intros H. apply update_sys_period_Ok in H as (_ & _ & _ & H). specialize (H m).
  unfold rows_of. destruct (tables db !! m) as [t|]; [|by rewrite H].
  destruct (in_scope (tables db) h m); [|by rewrite H].
  destruct H as (rs & Hrs & ->). simpl. intros Ht. rewrite Ht in Hrs.
  by injection Hrs as <-.
Qed.

(** The handler inserts into the history table alone: a table of another
    name that has no rows still has none afterwards. *)
Lemma update_history_of_row_keeps_empty (now : timestamptz) (tg : trigger_data)
    (db db' : database) (ret : option row) (m : string) :
  update_history_of_row now tg db = Ok (db', ret) →
  m ≠ argv tg 1 → rows_of m db = [] → rows_of m db' = [].
Proof.
  unfold update_history_of_row. intros H Hm He.
  destruct (negb (TG_NARGS tg =? 3)%nat); [discriminate|].
  apply bind_Ok in H as (db1 & H1 & H). apply bind_Ok in H as (db2 & H2 & H).
  injection H as <- <-.
  assert (He1 : rows_of m db1 = []).
  { destruct (tg_op_eqb (TG_OP tg) UPDATE || tg_op_eqb (TG_OP tg) DELETE).
    - apply bind_Ok in H1 as (old & _ & H1).
      eapply update_sys_period_keeps_empty; eauto.
    - by injection H1 as <-. }
  destruct (tg_op_eqb (TG_OP tg) INSERT || tg_op_eqb (TG_OP tg) UPDATE).
  - apply bind_Ok in H2 as (new & _ & H2).
    apply insert_history_row_Ok in H2 as (ht & Hht & ->).
    unfold rows_of in *. simpl. by rewrite lookup_insert_ne.
  - by injection H2 as <-.
Qed.

Lemma fire_one_keeps (now : timestamptz) (n h : string) (op : tg_op)
    (old new : option row) (d d' : database) :
  capture_installed n h d →
  fire_triggers now n op old new d = Ok d' →
  same_shape (tables d) (tables d')
  ∧ ∀ m, m ≠ h → rows_of m d = [] → rows_of m d' = [].
Proof.
  intros (t & Ht & Htg & Hsc) H. unfold fire_triggers in H.
  rewrite Ht, Htg in H. simpl in H.
  apply bind_Ok in H as (d1 & H & Hd1). injection Hd1 as <-.
  apply bind_Ok in H as ([d2 ret] & H & Hd2). injection Hd2 as <-. simpl.
  unfold call_trigger_function in H. simpl in H. split.
  - by apply update_history_of_row_frame in H as (_ & _ & _ & Hshape & _).
  - intros m Hm He. eapply update_history_of_row_keeps_empty; eauto.
Qed.

Lemma fire_all_keeps (now : timestamptz) (n h : string)
    (es : list (tg_op * option row * option row)) (d d' : database) :
  capture_installed n h d →
  foldM (fun d e => fire_triggers now n e.1.1 e.1.2 e.2 d) d es = Ok d' →
  same_shape (tables d) (tables d')
  ∧ ∀ m, m ≠ h → rows_of m d = [] → rows_of m d' = [].
Proof.
  revert d. induction es as [|[[op old] new] es IH]; intros d Hc H; simpl in H.
  - injection H as <-. split; [apply same_shape_refl | done].
  - apply bind_Ok in H as (d1 & H1 & H). simpl in H1.
    destruct (fire_one _ _ _ _ _ _ _ _ Hc H1) as (Hc1 & _ & _).
    destruct (fire_one_keeps _ _ _ _ _ _ _ _ Hc H1) as (Hs1 & He1).
    destruct (IH _ Hc1 H) as (Hs' & He'). split.
    + eapply same_shape_trans; eauto.
    + intros m Hm He. apply He'; [done|]. by apply He1.
Qed.

Lemma execute_keeps (now : timestamptz) (n h : string) (m0 : mutation)
    (db db' : database) :
  capture_installed n h db →
  execute now n m0 db = Ok db' →
  same_shape (tables db) (tables db')
  ∧ ∀ m, m ≠ h → m ≠ n → rows_of m db = [] → rows_of m db' = [].
Proof.
  intros Hc H. pose proof Hc as (t & Ht & Htg & Hsc).
  unfold execute in H. rewrite Ht in H.
  apply bind_Ok in H as (t' & Hpk & H).
  apply check_primary_key_Ok in Hpk as [-> _].
  set (mid := set_tables _ db) in H.
  assert (Hshape : same_shape (tables db) (tables mid)).
  { subst mid. simpl. by eapply same_shape_insert. }
  assert (Hmid : capture_installed n h mid).
  { exists (set_rows (mutate_rows m0 (rows t)) t). subst mid. simpl.
    rewrite lookup_insert_eq. split_and!; [done..|].
    by rewrite <- (in_scope_shape _ _ _ _ Hshape). }
  destruct (fire_all_keeps _ _ _ _ _ _ Hmid H) as (Hs' & He'). split.
  - eapply same_shape_trans; eauto.
  - intros m Hm Hn He. apply He'; [done|]. unfold rows_of in *. subst mid.
    simpl. by rewrite lookup_insert_ne.
Qed.

Lemma atomically_execute_descendants (now : timestamptz) (n h : string)
    (m : mutation) (db : database) :
  capture_installed n h db → descendants_empty h db →
  descendants_empty h (atomically (execute now n m) db).
Proof.
  intros Hc Hd. unfold atomically.
  destruct (execute now n m db) as [d|e] eqn:He; [|done].
  destruct (execute_keeps _ _ _ _ _ _ Hc He) as (Hs & Hk).
  intros m' Hsc Hne. rewrite <- (in_scope_shape _ _ _ _ Hs) in Hsc.
  apply Hk; [done | | by apply Hd].
  intros ->. destruct Hc as (_ & _ & _ & Hn). congruence.
Qed.

Lemma trace_descendants (n h : string) (steps : list (timestamptz * mutation))
    (db : database) :
  capture_installed n h db → has_primary_key n db →
  interval_invariant (rows_of n db) (rows_of h db) →
  descendants_empty h db →
  Forall (descendants_empty h) (trace n steps db).
Proof.
  revert db. induction steps as [|[now m] steps IH]; intros db Hc Hpk Hinv Hd;
    simpl; [constructor|].
  destruct (atomically_execute_invariant now n h m db Hc Hpk Hinv)
    as (Hc' & Hpk' & Hinv').
  pose proof (atomically_execute_descendants now n h m db Hc Hd) as Hd'.
  constructor; [done|]. by apply IH.
Qed.

(** ** Statements on a table without triggers *)

Lemma fire_none (now : timestamptz) (n : string)
    (es : list (tg_op * option row * option row)) (d : database) :
  (∃ t, tables d !! n = Some t ∧ triggers t = []) →
  foldM (fun d e => fire_triggers now n e.1.1 e.1.2 e.2 d) d es = Ok d.
Proof.
  intros (t & Ht & Htg). induction es as [|e es IH]; simpl; [done|].
  assert (He : fire_triggers now n e.1.1 e.1.2 e.2 d = Ok d).
  { unfold fire_triggers. by rewrite Ht, Htg. }
  rewrite He. simpl. exact IH.
Qed.

Lemma execute_without_triggers (now : timestamptz) (n : string) (m : mutation)
    (db : database) (t : table) :
  tables db !! n = Some t →
  (primary_key t = true → unique_ids (mutate_rows m (rows t)) = true) →
  ∃ plain, execute now n m (without_triggers n db) = Ok plain
           ∧ rows_of n plain = mutate_rows m (rows t).
Proof.
  intros Ht Hpk. unfold execute, without_triggers. simpl.
  rewrite lookup_alter_eq, Ht. simpl.
  unfold check_primary_key. simpl.
  destruct (primary_key t) eqn:Hp; simpl.
  - rewrite (Hpk eq_refl). simpl. eexists. split.
    + apply fire_none. eexists. simpl. rewrite lookup_insert_eq. eauto.
    + unfold rows_of. simpl. by rewrite lookup_insert_eq.
  - eexists. split.
    + apply fire_none. eexists. simpl. rewrite lookup_insert_eq. eauto.
    + unfold rows_of. simpl. by rewrite lookup_insert_eq.
Qed.

Lemma transaction_captured (now : timestamptz) (n h : string)
    (ms : list mutation) (db db' : database) :
  capture_installed n h db →
  foldM (fun d s => execute now s.1 s.2 d) db (map (pair n) ms) = Ok db' →
  captured now ms (rows_of n db) (rows_of h db)
  = Ok (rows_of n db', rows_of h db').
Proof.
  revert db. induction ms as [|m ms IH]; intros db Hc H; simpl in H.
  - by injection H as <-.
  - apply bind_Ok in H as (d & Hd & H). simpl in Hd.
    destruct (execute_captured _ _ _ _ _ _ Hc Hd) as (Hc' & Hrn & Hh & _).
    simpl. rewrite Hh. simpl. rewrite <- Hrn. by apply IH.
Qed.

Lemma update_history_of_row_delete (now : timestamptz) (tg : trigger_data)
    (db db' : database) (ret : option row) :
  TG_OP tg = DELETE →
  update_history_of_row now tg db = Ok (db', ret) →
  ∃ old, OLD tg = Some old
         ∧ update_sys_period now (argv tg 1) (argv tg 0) (id old) db = Ok db'.
Proof.
  unfold update_history_of_row. intros Hop H. rewrite Hop in H. simpl in H.
  destruct (negb (TG_NARGS tg =? 3)%nat); [discriminate|].
  apply bind_Ok in H as (db1 & H1 & H). injection H as <- <-.
  apply bind_Ok in H1 as (old & Hold & H1).
  destruct (OLD tg) as [o|]; [|discriminate]. injection Hold as ->. eauto.
Qed.

(** * The capture protocol *)

(** C1, evaluated on the code.  The claim is that a [Modify] closes only the
    open history row of the identity and leaves its closed rows as they are.
    On the widget of scenario 1, created at 0 and modified at 1 and at 2, the
    second modification rewrites the row that the first one closed:
    [[0, 1)] becomes [[0, 2)], and then overlaps [[1, 2)].  The statement of
    lines 302-306 selects by [id] alone. *)
Theorem modify_rewrites_closed_interval :
  map (rows_of "widget_history")
      (trace "widget"
             [(0, Create (Row 1 ["foo"] None));
              (1, Modify 1 (Row 1 ["bar"] None));
              (2, Modify 1 (Row 1 ["baz"] None))]
             (widget_db [] []))
  = [ [Row 1 ["foo"] (Some (range (Some 0) None))];
      [Row 1 ["foo"] (Some (range (Some 0) (Some 1)));
       Row 1 ["bar"] (Some (range (Some 1) None))];
      [Row 1 ["foo"] (Some (range (Some 0) (Some 2)));
       Row 1 ["bar"] (Some (range (Some 1) (Some 2)));
       Row 1 ["baz"] (Some (range (Some 2) None))] ]
  ∧ overlaps (range (Some 0) (Some 2)) (range (Some 1) (Some 2)).
Proof.
  split; [vm_compute; reflexivity|]. exists 1. split; reflexivity.
Qed.

(** C2 (invariant I1).  Along every sequence of Create, Modify and Remove
    statements on a versioned live table with a primary key, started with an
    empty history (the history table and its descendants hold no row), after
    each statement every identity has at most one history row whose interval
    is open: at most one in the history table itself, and none in the tables
    that inherit from it. *)
Theorem open_interval_unique (n h : string)
    (steps : list (timestamptz * mutation)) (db : database) :
  capture_installed n h db → has_primary_key n db →
  (∀ m, in_scope (tables db) h m = true → rows_of m db = []) →
  Forall (fun d =>
            ∀ k, (length (open_rows_of k (rows_of h d)) ≤ 1)%nat
                 ∧ ∀ m, in_scope (tables d) h m = true → m ≠ h →
                        open_rows_of k (rows_of m d) = [])
         (trace n steps db).
Proof.
  intros Hc Hpk He.
  assert (Hinv : interval_invariant (rows_of n db) (rows_of h db)).
  { rewrite (He h (in_scope_self _ _)). apply interval_invariant_nil. }
  assert (Hd : descendants_empty h db) by (intros m Hm _; by apply He).
  pose proof (trace_invariant n h steps db Hc Hpk Hinv) as H1.
  pose proof (trace_descendants n h steps db Hc Hpk Hinv Hd) as H2.
  rewrite Forall_forall in H1, H2. apply Forall_forall. intros d Hin k. split.
  - apply (H1 d Hin).
  - intros m Hm Hne. by rewrite (H2 d Hin m Hm Hne).
Qed.

Lemma open_interval_unique_witness :
  Forall (fun d =>
            ∀ k, (length (open_rows_of k (rows_of "widget_history" d)) ≤ 1)%nat
                 ∧ ∀ m, in_scope (tables d) "widget_history" m = true →
                        m ≠ "widget_history" →
                        open_rows_of k (rows_of m d) = [])
         (trace "widget"
                [(0, Create (Row 1 ["foo"] None));
                 (1, Modify 1 (Row 1 ["bar"] None));
                 (2, Remove 1);
                 (3, Create (Row 1 ["qux"] None))]
                (widget_db [] [])).
Proof.
  apply (open_interval_unique "widget" "widget_history").
  - eexists. split_and!; [vm_compute; reflexivity | reflexivity | vm_compute; reflexivity].
  - eexists. split; [vm_compute; reflexivity | reflexivity].
  - intros m Hm. unfold rows_of.
    destruct (decide (m = "widget_history")) as [->|Hh]; [vm_compute; reflexivity|].
    destruct (decide (m = "widget")) as [->|Hw]; [vm_compute; reflexivity|].
    unfold widget_db. simpl. by rewrite !lookup_insert_ne, lookup_empty by done.
Defined.

(** C7.  A captured Remove inserts no history row: whenever the handler
    returns from a [DELETE], every table has as many rows as before, and in
    the history table and its descendants no row of the removed identity has
    an open interval. *)
Theorem remove_closes_without_insert (now : timestamptz) (tg : trigger_data)
    (old : row) (db db' : database) (ret : option row) :
  TG_OP tg = DELETE → OLD tg = Some old →
  update_history_of_row now tg db = Ok (db', ret) →
  ∀ n, length (rows_of n db') = length (rows_of n db)
       ∧ (in_scope (tables db) (argv tg 1) n = true →
          open_rows_of (id old) (rows_of n db') = []).
Proof.
  intros Hop Hold H n.
  apply update_history_of_row_delete in H as (old' & Hold' & H); [|done].
  rewrite Hold in Hold'. injection Hold' as <-.
  apply update_sys_period_Ok in H as (_ & _ & _ & H). specialize (H n).
  unfold rows_of. destruct (tables db !! n) as [t|]; [|by rewrite H].
  destruct (in_scope (tables db) (argv tg 1) n).
  - destruct H as (rs & Hrs & ->). simpl. split.
    + eapply close_where_id_length; eauto.
    + intros _. eapply close_where_id_no_open; eauto.
  - rewrite H. split; [done | discriminate].
Qed.

Lemma remove_closes_without_insert_witness :
  length (rows_of "widget_history"
            (widget_db [] [Row 1 ["bar"] (Some (range (Some 1) (Some 2)))]))
  = length (rows_of "widget_history"
              (widget_db [] [Row 1 ["bar"] (Some (range (Some 1) None))]))
  ∧ (in_scope (tables (widget_db [] [Row 1 ["bar"] (Some (range (Some 1) None))]))
              "widget_history" "widget_history" = true →
     open_rows_of 1
       (rows_of "widget_history"
          (widget_db [] [Row 1 ["bar"] (Some (range (Some 1) (Some 2)))]))
     = []).
Proof.
  apply (remove_closes_without_insert 2
           (TriggerData DELETE "widget" ["sys_period"; "widget_history"; "true"]
                        (Some (Row 1 ["bar"] None)) None)
           (Row 1 ["bar"] None)
           (widget_db [] [Row 1 ["bar"] (Some (range (Some 1) None))])
           (widget_db [] [Row 1 ["bar"] (Some (range (Some 1) (Some 2)))])
           None).
  - reflexivity.
  - reflexivity.
  - vm_compute. reflexivity.
Defined.



(** C10.  The handler leaves the live table alone.  Whatever the operation
    and the row images, when the capture handler of a versioned table
    returns, it returns NULL and the live table is as it found it; so the
    live rows after a statement are the rows the same statement leaves when
    no trigger is installed. *)
Theorem capture_leaves_live_table (now : timestamptz) (n h : string)
    (m : mutation) (db db' : database) :
  capture_installed n h db →
  execute now n m db = Ok db' →
  (∀ op old new d d' ret,
      in_scope (tables d) h n = false →
      update_history_of_row now
        (TriggerData op n ["sys_period"; h; "true"] old new) d = Ok (d', ret) →
      ret = None ∧ tables d' !! n = tables d !! n)
  ∧ ∃ plain, execute now n m (without_triggers n db) = Ok plain
             ∧ rows_of n db' = rows_of n plain.
Proof.
  intros Hc H. split.
  - intros op old new d d' ret Hsc Hh.
    apply update_history_of_row_frame in Hh as (-> & _ & _ & _ & Hf).
    split; [done|]. by apply Hf.
  - destruct (execute_captured _ _ _ _ _ _ Hc H) as (_ & Hrn & _ & _).
    destruct Hc as (t & Ht & _ & _). unfold execute in H. rewrite Ht in H.
    apply bind_Ok in H as (t' & Hpk & _).
    apply check_primary_key_Ok in Hpk as [_ Hpk]. simpl in Hpk.
    destruct (execute_without_triggers now n m db t Ht Hpk) as (plain & Hp & Hr).
    exists plain. split; [done|]. rewrite Hrn, Hr. unfold rows_of. by rewrite Ht.
Qed.

Lemma capture_leaves_live_table_witness :
  ∃ plain,
    execute 1 "widget" (Modify 1 (Row 1 ["bar"] None))
            (without_triggers "widget"
               (widget_db [Row 1 ["foo"] None]
                          [Row 1 ["foo"] (Some (range (Some 0) None))]))
    = Ok plain
    ∧ rows_of "widget"
        (widget_db [Row 1 ["bar"] None]
                   [Row 1 ["foo"] (Some (range (Some 0) (Some 1)));
                    Row 1 ["bar"] (Some (range (Some 1) None))])
      = rows_of "widget" plain.
Proof.
  refine (proj2 (capture_leaves_live_table 1 "widget" "widget_history"
                   (Modify 1 (Row 1 ["bar"] None))
                   (widget_db [Row 1 ["foo"] None]
                              [Row 1 ["foo"] (Some (range (Some 0) None))])
                   (widget_db [Row 1 ["bar"] None]
                              [Row 1 ["foo"] (Some (range (Some 0) (Some 1)));
                               Row 1 ["bar"] (Some (range (Some 1) None))])
                   _ _)).
  - eexists. split_and!; [vm_compute; reflexivity | reflexivity | vm_compute; reflexivity].
  - vm_compute. reflexivity.
Defined.

(** * The registry *)

Lemma is_registered_entries (h : string) (db : database) :
  is_registered h db = false ↔ entries_of h db = [].
Proof.
  unfold is_registered, entries_of.
  induction (catmaid_history_table db) as [|e es IH]; simpl; [done|].
  destruct (cht_history_table_name e =? h)%string; simpl; [split; discriminate | done].
Qed.

Lemma insert_catmaid_history_table_Ok (now : timestamptz) (h l : string)
    (db db' : database) :
  insert_catmaid_history_table now h l db = Ok db' →
  is_registered h db = false
  ∧ db' = Database (tables db) (indexes db)
                   (catmaid_history_table db ++ [HistoryEntry h l now]).
Proof.
  unfold insert_catmaid_history_table.
  destruct (is_registered h db); [discriminate|]. by intros [= <-].
Qed.



(** * Names of history tables *)

Lemma translate_app (a b from to : string) :
  translate (a +:+ b) from to = translate a from to +:+ translate b from to.
Proof.
  induction a as [|c a IH]; simpl; [done|]. rewrite IH.
  destruct (index_of c from) as [i|]; [|done]. by destruct (String.get i to).
Qed.

Lemma translate_double_dquotes (s : string) :
  translate (double_dquotes s) (String dquote EmptyString) EmptyString
  = translate s (String dquote EmptyString) EmptyString.
Proof.
  induction s as [|c s IH]; simpl; [done|].
  destruct (Ascii.eqb c dquote) eqn:Hc; simpl.
  - by rewrite IH.
  - rewrite Hc. simpl. by rewrite IH.
Qed.

Lemma append_empty_r (s : string) : s +:+ EmptyString = s.
Proof.
  induction s as [|c s IH]; [done|].
  change (String c s +:+ EmptyString) with (String c (s +:+ EmptyString)).
  by rewrite IH.
Qed.

(** The name of the history table does not depend on what [quote_ident]
    quotes: it is the live name without its double quotes, followed by
    [_history]. *)
Lemma history_table_name_plain (keyword : string → bool) (s : string) :
  history_table_name keyword s
  = translate s (String dquote EmptyString) EmptyString +:+ "_history".
Proof.
  unfold history_table_name. rewrite translate_app. f_equal.
  unfold quote_ident. destruct (safe_ident keyword s); [done|].
  change (String dquote (double_dquotes s +:+ String dquote EmptyString))
    with (String dquote EmptyString +:+ (double_dquotes s +:+ String dquote EmptyString)).
  rewrite !translate_app, translate_double_dquotes. simpl.
  apply append_empty_r.
Qed.

Lemma history_table_name_keyword (keyword keyword' : string → bool) (s : string) :
  history_table_name keyword s = history_table_name keyword' s.
Proof. by rewrite !history_table_name_plain. Qed.

Lemma create_history_table_keyword (keyword keyword' : string → bool)
    (depth : nat) (now : timestamptz) (s n : string) (ct ci : bool)
    (db : database) :
  create_history_table keyword depth now s n ct ci db
  = create_history_table keyword' depth now s n ct ci db.
Proof.
  revert s n ct ci db. induction depth as [|depth IH]; intros s n ct ci db; [done|].
  cbn [create_history_table].
  rewrite (history_table_name_keyword keyword keyword' n).
  destruct (regclass s n db); [|done]. simpl.
  destruct (is_registered _ db); [done|].
  destruct ci; [|done].
  destruct (inheritening_of s n db) as [|p [|p' ps]]; [done| |done].
  rewrite IH.
  destruct (create_history_table keyword' depth now _ _ true true db); [|done].
  simpl. by rewrite (history_table_name_keyword keyword keyword' (parent_tablename p)).
Qed.

(** * The steps of the synthesizer *)

Lemma extends_refl (db : database) : extends db db.
Proof. split; eauto. Qed.

Lemma extends_trans (d1 d2 d3 : database) :
  extends d1 d2 → extends d2 d3 → extends d1 d3.
Proof.
  intros [T1 R1] [T2 R2]. split; [|auto].
  intros m t Ht. destruct (T1 _ _ Ht) as (t' & Ht' & Hg).
  destruct (T2 _ _ Ht') as (t'' & Ht'' & Hg'). eauto.
Qed.

Lemma regclass_Ok (s n q : string) (db : database) :
  regclass s n db = Ok q → q = n ∧ s = "public" ∧ is_Some (tables db !! n).
Proof.
  unfold regclass. destruct (String.eqb_spec s "public") as [->|]; [|discriminate].
  simpl. case_bool_decide; [|discriminate]. by intros [= <-].
Qed.

Lemma for_tables_extends (sel : string → bool) (f : table → result table)
    (tabs tabs' : gmap string table) :
  (∀ t t', f t = Ok t' → triggers t' = triggers t) →
  for_tables sel f tabs = Ok tabs' →
  ∀ m t, tabs !! m = Some t →
         ∃ t', tabs' !! m = Some t' ∧ triggers t' = triggers t.
Proof.
  intros Hf H m t Ht. pose proof (for_tables_Ok _ _ _ _ H m) as Hm.
  rewrite Ht in Hm. destruct (sel m); [|eauto].
  destruct Hm as (t' & Ht' & Hl). eauto.
Qed.

Lemma create_table_like_extends (h l : string) (parent : option string)
    (db db' : database) :
  create_table_like h l parent db = Ok db' → extends db db'.
Proof.
  unfold create_table_like. destruct (relation_exists h db) eqn:Hex.
  { intros [= <-]. apply extends_refl. }
  assert (Hh : tables db !! h = None).
  { unfold relation_exists in Hex. apply orb_false_elim in Hex as [Hex _].
    apply bool_decide_eq_false in Hex. by apply eq_None_not_Some. }
  assert (Hins : ∀ t0, extends db (set_tables (<[h := t0]> (tables db)) db)).
  { intros t0. split; [|done]. intros m t Ht. exists t. split; [|done]. simpl.
    rewrite lookup_insert_ne; [done|]. intros <-. congruence. }
  destruct (tables db !! l); [|discriminate].
  destruct parent as [p|].
  - destruct (tables db !! p); [|discriminate]. intros [= <-]. apply Hins.
  - intros [= <-]. apply Hins.
Qed.

Lemma alter_column_extends (change : column → column) (h c : string)
    (db db' : database) :
  alter_column change h c db = Ok db' → extends db db'.
Proof.
  unfold alter_column. destruct (tables db !! h); [|discriminate].
  destruct (has_column c t); [|discriminate]. intros H.
  apply bind_Ok in H as (tabs & Htabs & H). injection H as <-.
  split; [|done]. intros m t0 Ht0. simpl.
  eapply for_tables_extends in Htabs as (t' & Ht' & Htg); [|..|exact Ht0].
  - exists t'. split; [done|]. by rewrite Htg.
  - intros t1 t1' H. by injection H as <-.
Qed.

Lemma add_sys_period_extends (now : timestamptz) (h : string) (db db' : database) :
  add_sys_period now h db = Ok db' →
  extends db db' ∧ is_Some (tables db !! h).
Proof.
  unfold add_sys_period. destruct (tables db !! h) eqn:Hh; [|discriminate].
  intros H. apply bind_Ok in H as (tabs & Htabs & H). injection H as <-.
  split; [|eauto]. split; [|done]. intros m t0 Ht0. simpl.
  assert (Hf : ∀ t1 t', (p ← mk_tstzrange (Some now) None;
                Ok (Table
                      (if has_column "sys_period" t1 then columns t1
                       else columns t1
                            ++ [Column "sys_period" true
                                       (Some "tstzrange(current_timestamp, null)")])
                      (inherits t1) (primary_key t1) (triggers t1)
                      (map (fun r =>
                              match sys_period r with
                              | Some _ => r
                              | None => Row (id r) (cells r) (Some p)
                              end) (rows t1)))) = Ok t' → triggers t' = triggers t1).
  { intros t1 t' H. simpl in H. by injection H as <-. }
  destruct (for_tables_extends _ _ _ _ Hf Htabs m t0 Ht0) as (t' & Ht' & Htg).
  exists t'. split; [done|]. by rewrite Htg.
Qed.

Lemma create_index_Ok (i h : string) (db db' : database) :
  create_index i h db = Ok db' →
  tables db' = tables db ∧ catmaid_history_table db' = catmaid_history_table db.
Proof.
  unfold create_index. destruct (relation_exists i db); [discriminate|].
  destruct (tables db !! h); [|discriminate].
  destruct (has_column "sys_period" t); [|discriminate]. by intros [= <-].
Qed.

Lemma create_trigger_Ok (tg l fn : string) (args : list string)
    (db db' : database) :
  create_trigger tg l fn args db = Ok db' →
  ∃ t, tables db !! l = Some t
       ∧ tables db' = <[l := set_triggers (triggers t ++ [Trigger tg fn args]) t]>
                        (tables db)
       ∧ catmaid_history_table db' = catmaid_history_table db.
Proof.
  unfold create_trigger. destruct (tables db !! l) as [t|]; [|discriminate].
  destruct (existsb _ _); [discriminate|]. intros [= <-]. eauto.
Qed.

Lemma create_trigger_extends (tg l fn : string) (args : list string)
    (db db' : database) :
  create_trigger tg l fn args db = Ok db' → extends db db'.
Proof.
  intros H. apply create_trigger_Ok in H as (t & Ht & Htabs & Hreg).
  split; [|by rewrite Hreg]. intros m t0 Ht0. rewrite Htabs.
  destruct (decide (l = m)) as [<-|Hne].
  - rewrite lookup_insert_eq. eexists. split; [done|]. simpl.
    rewrite Ht in Ht0. injection Ht0 as <-. intros g Hg.
    apply elem_of_app. by left.
  - rewrite lookup_insert_ne by done. eauto.
Qed.

Lemma insert_catmaid_history_table_extends (now : timestamptz) (h l : string)
    (db db' : database) :
  insert_catmaid_history_table now h l db = Ok db' → extends db db'.
Proof.
  intros H. apply insert_catmaid_history_table_Ok in H as [_ ->].
  split; [eauto|]. simpl. intros e He. apply elem_of_app. by left.
Qed.

Section SynthesizerFacts.

Variable keyword : string → bool.

Abbreviation hname := (history_table_name keyword).

(** The successive states of one call that returns. *)
Lemma create_history_table_inv (d : nat) (now : timestamptz) (s n : string)
    (ct ci : bool) (db db1 : database) :
  create_history_table keyword (S d) now s n ct ci db = Ok db1 →
  regclass s n db = Ok n
  ∧ if is_registered (hname n) db then db1 = db
    else
      ∃ pd db2 db3 db4 db5,
        (if ci then
           match inheritening_of s n db with
           | [] => pd = (None, db)
           | [p] =>
               pd.1 = Some p
               ∧ create_history_table keyword d now (parent_schemaname p)
                   (parent_tablename p) true true db = Ok pd.2
           | _ :: _ :: _ => False
           end
         else pd = (None, db))
        ∧ create_table_like (hname n) n
            ((fun p : inheritening => hname (parent_tablename p)) <$> pd.1)
            pd.2 = Ok db2
        ∧ foldM (fun d column_info =>
                   d' ← alter_column drop_not_null (hname n)
                          (column_name column_info) d;
                   alter_column set_default_null (hname n)
                     (column_name column_info) d')
                db2
                (match tables db2 !! n with
                 | Some t => columns t
                 | None => []
                 end) = Ok db3
        ∧ (if match tables db3 !! hname n with
              | Some t => has_column "sys_period" t
              | None => false
              end
           then db4 = db3
           else add_sys_period now (hname n) db3 = Ok db4)
        ∧ (if relation_exists (hname n +:+ "_sys_period") db4 then db5 = db4
           else create_index (hname n +:+ "_sys_period") (hname n) db4 = Ok db5)
        ∧ (if ct then
             ∃ db6, create_trigger (trigger_name n) n "update_history_of_row"
                      ["sys_period"; hname n; "true"] db5 = Ok db6
                    ∧ insert_catmaid_history_table now (hname n) n db6 = Ok db1
           else db1 = db5).
Proof.
  cbn [create_history_table]. intros H.
  apply bind_Ok in H as (q & Hq & H).
  pose proof (regclass_Ok _ _ _ _ Hq) as (-> & _ & _). split; [done|].
  cbv zeta in H. destruct (is_registered (hname n) db); [by injection H as <-|].
  apply bind_Ok in H as (pd & Hpd & H). apply bind_Ok in H as (db2 & H2 & H).
  apply bind_Ok in H as (db3 & H3 & H). apply bind_Ok in H as (db4 & H4 & H).
  apply bind_Ok in H as (db5 & H5 & H).
  exists pd, db2, db3, db4, db5. split_and!; [|done|done| | |].
  - destruct ci; [|by injection Hpd as <-].
    destruct (inheritening_of s n db) as [|p [|p' ps]]; [by injection Hpd as <-| |done].
    apply bind_Ok in Hpd as (dbp & Hdbp & Hpd). by injection Hpd as <-.
  - destruct (match tables db3 !! hname n with Some _ => _ | None => _ end);
      [by injection H4 as <- | done].
  - destruct (relation_exists _ db4); [by injection H5 as <- | done].
  - destruct ct; [|by injection H as <-].
    apply bind_Ok in H as (db6 & H6 & H). eauto.
Qed.

Lemma create_history_table_extends (d : nat) (now : timestamptz) (s n : string)
    (ct ci : bool) (db db1 : database) :
  create_history_table keyword d now s n ct ci db = Ok db1 → extends db db1.
Proof.
  revert s n ct ci db db1.
  induction d as [|d IH]; intros s n ct ci db db1 H; [discriminate|].
  apply create_history_table_inv in H as [_ H].
  destruct (is_registered (hname n) db); [subst; apply extends_refl|].
  destruct H as (pd & db2 & db3 & db4 & db5 & Hpd & H2 & H3 & H4 & H5 & H6).
  assert (E1 : extends db pd.2).
  { destruct ci; [|subst; apply extends_refl].
    destruct (inheritening_of s n db) as [|p [|p' ps]];
      [subst; apply extends_refl | | done].
    destruct Hpd as [_ Hpd]. eauto. }
  assert (E2 : extends pd.2 db2) by eauto using create_table_like_extends.
  assert (E3 : extends db2 db3).
  { eapply (foldM_invariant (extends db2)); [|apply extends_refl|exact H3].
    intros c t t' Ht Hb. apply bind_Ok in Hb as (t1 & Ht1 & Hb).
    eauto using extends_trans, alter_column_extends. }
  assert (E4 : extends db3 db4).
  { destruct (match tables db3 !! hname n with Some _ => _ | None => _ end);
      [subst; apply extends_refl|].
    by apply add_sys_period_extends in H4 as [H4 _]. }
  assert (E5 : extends db4 db5).
  { destruct (relation_exists _ db4); [subst; apply extends_refl|].
    apply create_index_Ok in H5 as [Ht Hr]. split.
    - rewrite Ht. eauto.
    - by rewrite Hr. }
  assert (E6 : extends db5 db1).
  { destruct ct; [|subst; apply extends_refl].
    destruct H6 as (db6 & H6 & H7).
    eauto using extends_trans, create_trigger_extends,
      insert_catmaid_history_table_extends. }
  eapply extends_trans; [exact E1|]. eapply extends_trans; [exact E2|].
  eapply extends_trans; [exact E3|]. eapply extends_trans; [exact E4|].
  eapply extends_trans; [exact E5 | exact E6].
Qed.


Lemma regclass_public (n : string) (db : database) :
  is_Some (tables db !! n) → regclass "public" n db = Ok n.
Proof.
  intros H. unfold regclass. simpl. by rewrite bool_decide_eq_true_2.
Qed.

(** The guard of lines 85-89: under a registered history name the call
    returns at once. *)
Lemma create_history_table_registered (d : nat) (now : timestamptz)
    (s n : string) (ct ci : bool) (db : database) :
  regclass s n db = Ok n → is_registered (hname n) db = true →
  create_history_table keyword (S d) now s n ct ci db = Ok db.
Proof.
  intros Hq Hr. cbn [create_history_table]. rewrite Hq. simpl. by rewrite Hr.
Qed.

Lemma entries_of_registered (h : string) (db : database) :
  is_registered h db = true → (1 ≤ length (entries_of h db))%nat.
Proof.
  intros H. destruct (entries_of h db) eqn:He; [|simpl; lia].
  apply is_registered_entries in He. congruence.
Qed.

(** A call that is not stopped by the guard and installs the capture leaves
    the capture trigger on the live table and the entry in the registry. *)
Lemma create_history_table_installs (d : nat) (now : timestamptz) (s n : string)
    (ci : bool) (db db1 : database) :
  is_registered (hname n) db = false →
  create_history_table keyword d now s n true ci db = Ok db1 →
  capture_trigger n (hname n) ∈ triggers_of n db1
  ∧ HistoryEntry (hname n) n now ∈ catmaid_history_table db1.
Proof.
  intros Hreg H. destruct d as [|d]; [discriminate|].
  apply create_history_table_inv in H as [_ H]. rewrite Hreg in H.
  destruct H as (pd & db2 & db3 & db4 & db5 & _ & _ & _ & _ & _ & db6 & H6 & H7).
  apply insert_catmaid_history_table_Ok in H7 as [_ ->].
  apply create_trigger_Ok in H6 as (t & Ht & Htabs & _). split.
  - unfold triggers_of. simpl. rewrite Htabs, lookup_insert_eq. simpl.
    apply elem_of_app. right. by left.
  - simpl. apply elem_of_app. right. by left.
Qed.

(** The database of scenario 1 is the one the synthesizer makes of a bare
    [widget] table. *)
Lemma widget_db_created :
  create_history_table keyword 1 0 "public" "widget" true true
    (Database (<["widget" := Table widget_columns [] true [] []]> ∅) ∅ [])
  = Ok (widget_db [] []).
Proof.
  rewrite (create_history_table_keyword keyword no_keyword).
  vm_compute. reflexivity.
Qed.

(** C5 (install idempotence).  When the registry holds its primary key and
    a history that is registered exists, a call of [create_history_table]
    that installs the capture and returns leaves exactly one registry
    entry under the history name and the history table in place, and any
    further call for the same live table returns with the database
    unchanged. *)
Theorem create_history_table_twice (d : nat) (now : timestamptz) (s n : string)
    (ci : bool) (db db1 : database) :
  (length (entries_of (hname n) db) ≤ 1)%nat →
  (is_registered (hname n) db = true → is_Some (tables db !! hname n)) →
  create_history_table keyword d now s n true ci db = Ok db1 →
  length (entries_of (hname n) db1) = 1%nat
  ∧ is_Some (tables db1 !! hname n)
  ∧ ∀ d' now' ct' ci',
      create_history_table keyword (S d') now' s n ct' ci' db1 = Ok db1.
Proof.
  intros Hpk Hi3 H. destruct d as [|d]; [discriminate|].
  apply create_history_table_inv in H as [Hq H].
  destruct (is_registered (hname n) db) eqn:Hreg.
  - subst db1. pose proof (entries_of_registered _ _ Hreg).
    split_and!; [lia | auto |]. intros. by apply create_history_table_registered.
  - destruct H as (pd & db2 & db3 & db4 & db5 & _ & _ & _ & H4 & H5 & db6 & H6 & H7).
    apply insert_catmaid_history_table_Ok in H7 as [Hreg6 ->].
    assert (Hh4 : is_Some (tables db4 !! hname n)).
    { destruct (tables db3 !! hname n) as [t|] eqn:Ht3.
      - destruct (has_column "sys_period" t).
        + subst db4. rewrite Ht3. eauto.
        + apply add_sys_period_extends in H4 as [[E _] _].
          destruct (E _ _ Ht3) as (t' & -> & _). eauto.
      - apply add_sys_period_extends in H4 as [_ [? ?]]. congruence. }
    assert (Hh5 : is_Some (tables db5 !! hname n)).
    { destruct (relation_exists _ db4); [by subst|].
      apply create_index_Ok in H5 as [-> _]. done. }
    pose proof (create_trigger_extends _ _ _ _ _ _ H6) as [E6 _].
    apply create_trigger_Ok in H6 as (t & Ht & Htabs & _).
    split_and!.
    + unfold entries_of. simpl. rewrite List.filter_app. simpl.
      rewrite String.eqb_refl. apply is_registered_entries in Hreg6.
      unfold entries_of in Hreg6. by rewrite Hreg6.
    + simpl. destruct Hh5 as [t5 Ht5]. destruct (E6 _ _ Ht5) as (t' & -> & _). eauto.
    + intros d' now' ct' ci'. apply create_history_table_registered.
      * apply regclass_Ok in Hq as (_ & -> & _). apply regclass_public. simpl.
        rewrite Htabs, lookup_insert_eq. eauto.
      * unfold is_registered. simpl. rewrite existsb_app. simpl.
        by rewrite String.eqb_refl, orb_true_r.
Qed.

(** C6.  When the view reports more than one parent for the live table
    whose history is being created with [copy_inheritance], the call
    raises, and nothing of it is committed. *)
Theorem multiple_parents_rejected (d : nat) (now : timestamptz) (s n : string)
    (ct : bool) (db : database) :
  (1 < length (inheritening_of s n db))%nat →
  is_registered (hname n) db = false →
  (∃ msg, create_history_table keyword (S d) now s n ct true db
          = Err (raise_exception msg))
  ∧ atomically (create_history_table keyword (S d) now s n ct true) db = db.
Proof.
  intros Hp Hreg.
  assert (Hq : regclass s n db = Ok n).
  { unfold inheritening_of in Hp.
    destruct (String.eqb_spec s "public") as [->|]; [|simpl in Hp; lia].
    apply regclass_public. destruct (tables db !! n); [eauto | simpl in Hp; lia]. }
  assert (H : ∃ msg, create_history_table keyword (S d) now s n ct true db
                     = Err (raise_exception msg)).
  { cbn [create_history_table]. rewrite Hq. simpl. rewrite Hreg.
    destruct (inheritening_of s n db) as [|p [|p' ps]]; [simpl in Hp; lia..|].
    simpl. eauto. }
  split; [done|]. destruct H as [msg H]. unfold atomically. by rewrite H.
Qed.

(** X11.  An error raised while the history of the parent is created is the error
    of the call for the child: nothing of the child is created after it. *)
Lemma create_history_table_parent_raises (d : nat) (now : timestamptz)
    (s n : string) (ct : bool) (db : database) (p : inheritening) (e : sqlerror) :
  inheritening_of s n db = [p] →
  is_registered (hname n) db = false →
  create_history_table keyword d now (parent_schemaname p) (parent_tablename p)
    true true db = Err e →
  create_history_table keyword (S d) now s n ct true db = Err e.
Proof.
  intros Hp Hreg He.
  assert (Hq : regclass s n db = Ok n).
  { unfold inheritening_of in Hp.
    destruct (String.eqb_spec s "public") as [->|]; [|discriminate].
    apply regclass_public. destruct (tables db !! n); [eauto | discriminate]. }
  cbn [create_history_table]. rewrite Hq. simpl. rewrite Hreg, Hp, He. done.
Qed.

(** C3, evaluated on the code.  The claim is that the history of a parent
    is created without the capture hook and without a registry entry.
    With [gadget] inheriting from [widget] and no history yet, creating
    the history of [gadget] also puts the capture trigger on [widget] and
    registers [widget_history]: line 121 passes [TRUE] for
    [create_triggers]. *)
Theorem parent_history_gets_capture :
  ∃ db', create_history_table keyword 2 7 "public" "gadget" true true gadget_db
         = Ok db'
         ∧ triggers_of "widget" db' = [capture_trigger "widget" "widget_history"]
         ∧ catmaid_history_table db'
           = [HistoryEntry "widget_history" "widget" 7;
              HistoryEntry "gadget_history" "gadget" 7].
Proof.
  rewrite (create_history_table_keyword keyword (fun _ => false)).
  eexists. split; [vm_compute; reflexivity|]. split; vm_compute; reflexivity.
Qed.


(** ** Teardown *)

Lemma database_eq (a b : database) :
  tables a = tables b → indexes a = indexes b →
  catmaid_history_table a = catmaid_history_table b → a = b.
Proof. destruct a, b. simpl. by intros -> -> ->. Qed.


Lemma drop_trigger_indexes (tg l : string) (db : database) :
  indexes (drop_trigger tg l db) = indexes db.
Proof. unfold drop_trigger. by destruct (tables db !! l). Qed.

Lemma drop_trigger_registry (tg l : string) (db : database) :
  catmaid_history_table (drop_trigger tg l db) = catmaid_history_table db.
Proof. unfold drop_trigger. by destruct (tables db !! l). Qed.

Lemma drop_table_cascade_Ok (h : string) (db db1 : database) :
  drop_table_cascade h db = Ok db1 →
  tables db1 !! h = None
  ∧ (∀ m, tables db1 !! m = None ∨ tables db1 !! m = tables db !! m)
  ∧ (is_Some (tables db !! h) →
     ∀ m, in_scope (tables db) h m = true → tables db1 !! m = None)
  ∧ (∀ i, indexes db !! i = None → indexes db1 !! i = None)
  ∧ catmaid_history_table db1 = catmaid_history_table db.
Proof.
  unfold drop_table_cascade. destruct (tables db !! h) as [t|] eqn:Hh.
  - intros [= <-]. simpl. split_and!; [| | | |done].
    + apply map_lookup_filter_None. right. intros t0 _. simpl.
      by rewrite in_scope_self.
    + intros m. destruct (in_scope (tables db) h m) eqn:Hm.
      * left. apply map_lookup_filter_None. right. intros t0 _. simpl.
        by rewrite Hm.
      * destruct (tables db !! m) as [t0|] eqn:Ht0.
        -- right. by apply map_lookup_filter_Some.
        -- left. apply map_lookup_filter_None. by left.
    + intros _ m Hm. apply map_lookup_filter_None. right. intros t0 _. simpl.
      by rewrite Hm.
    + intros i Hi. apply map_lookup_filter_None. by left.
  - case_bool_decide; [discriminate|]. intros [= <-].
    split_and!; [done | by right | by intros [? ?] | done | done].
Qed.




End SynthesizerFacts.

(** * Instances *)

Lemma create_history_table_twice_witness :
  length (entries_of "gadget_history" gadget_versioned_db) = 1%nat.
Proof.
  refine (proj1 (create_history_table_twice no_keyword 2 7 "public" "gadget" true
                   gadget_db gadget_versioned_db _ _ _)).
  - vm_compute. lia.
  - vm_compute. discriminate.
  - vm_compute. reflexivity.
Defined.

Lemma multiple_parents_rejected_witness :
  ∃ msg, create_history_table no_keyword 1 0 "public" "hybrid" true true hybrid_db
         = Err (raise_exception msg).
Proof.
  refine (proj1 (multiple_parents_rejected no_keyword 0 0 "public" "hybrid" true
                   hybrid_db _ _)).
  - vm_compute. lia.
  - vm_compute. reflexivity.
Defined.



(** * More on the names of history tables *)

Lemma no_dquote_app (a b : string) :
  no_dquote (a +:+ b) = no_dquote a && no_dquote b.
Proof.
  induction a as [|c a IH]; [done|].
  change (String c a +:+ b) with (String c (a +:+ b)). simpl.
  by rewrite IH, andb_assoc.
Qed.

Lemma no_dquote_strip (s : string) : no_dquote (strip_dquotes s) = true.
Proof.
  unfold strip_dquotes. induction s as [|c s IH]; [done|]. simpl.
  destruct (Ascii.eqb c dquote) eqn:Hc; simpl; [done|]. by rewrite Hc, IH.
Qed.

Lemma strip_no_dquote (s : string) :
  no_dquote s = true → strip_dquotes s = s.
Proof.
  unfold strip_dquotes. induction s as [|c s IH]; [done|]. simpl.
  destruct (Ascii.eqb c dquote) eqn:Hc; simpl; [discriminate|].
  intros H. by rewrite IH.
Qed.

Lemma length_append (a b : string) :
  String.length (a +:+ b) = (String.length a + String.length b)%nat.
Proof.
  induction a as [|c a IH]; [done|].
  change (String c a +:+ b) with (String c (a +:+ b)). simpl. by rewrite IH.
Qed.

Lemma append_cancel_r (a b s : string) : a +:+ s = b +:+ s → a = b.
Proof.
  revert b. induction a as [|c a IH]; intros [|d b] H.
  - done.
  - apply (f_equal String.length) in H. rewrite !length_append in H.
    simpl in H. lia.
  - apply (f_equal String.length) in H. rewrite !length_append in H.
    simpl in H. lia.
  - change (String c (a +:+ s) = String d (b +:+ s)) in H.
    injection H as -> H. f_equal. by apply IH.
Qed.

Section Names.

Variable keyword : string → bool.

(** X1.  Whatever [quote_ident] takes for a keyword, the name of the history
    table is the live name with every double quote deleted, followed by
    [_history]. *)
Theorem history_table_name_strips_quotes (live_table_name : string) :
  history_table_name keyword live_table_name
  = strip_dquotes live_table_name +:+ "_history".
Proof. apply history_table_name_plain. Qed.

Lemma history_table_name_neq (live_table_name : string) :
  history_table_name keyword live_table_name ≠ live_table_name.
Proof.
  rewrite history_table_name_plain. intros H.
  assert (Hq : no_dquote live_table_name = true).
  { rewrite <- H, no_dquote_app. fold (strip_dquotes live_table_name).
    by rewrite no_dquote_strip. }
  fold (strip_dquotes live_table_name) in H. rewrite (strip_no_dquote _ Hq) in H.
  apply (f_equal String.length) in H. rewrite length_append in H. simpl in H. lia.
Qed.

(** X2.  The history name of a table is never the name of the table itself,
    and the name of the index on [sys_period] is never the history name. *)
Theorem history_table_name_differs (live_table_name : string) :
  history_table_name keyword live_table_name ≠ live_table_name
  ∧ history_table_name keyword live_table_name +:+ "_sys_period"
    ≠ history_table_name keyword live_table_name.
Proof.
  split; [apply history_table_name_neq|]. intros E.
  apply (f_equal String.length) in E. rewrite length_append in E. simpl in E. lia.
Qed.

(** X3.  Two live tables get the same history name exactly when their names
    differ in double quotes only. *)
Theorem history_table_name_collides (a b : string) :
  history_table_name keyword a = history_table_name keyword b
  ↔ strip_dquotes a = strip_dquotes b.
Proof.
  rewrite !history_table_name_plain. fold (strip_dquotes a) (strip_dquotes b).
  split; [apply append_cancel_r | by intros ->].
Qed.

End Names.

(** * More on the capture handler *)

Lemma close_where_id_no_id (now : timestamptz) (k : Z) (rs : list row) :
  has_id k rs = false → close_where_id now k rs = Ok rs.
Proof.
  unfold close_where_id. induction rs as [|r rs IH]; [done|]. simpl.
  intros H. apply orb_false_elim in H as [-> H]. simpl. by rewrite IH.
Qed.

Lemma set_rows_same (t : table) : set_rows (rows t) t = t.
Proof. by destruct t. Qed.

Lemma update_sys_period_no_history (now : timestamptz) (h : string) (k : Z)
    (db : database) (ht : table) :
  tables db !! h = Some ht → has_column "sys_period" ht = true →
  no_history_of h k db →
  update_sys_period now h "sys_period" k db = Ok db.
Proof.
  intros Hh Hc Hno. unfold update_sys_period. rewrite Hh, Hc. simpl.
  destruct (for_tables_total (in_scope (tables db) h)
              (fun t' => rs ← close_where_id now k (rows t'); Ok (set_rows rs t'))
              (tables db)) as [tabs Htabs].
  { intros m t Ht Hsc. rewrite close_where_id_no_id by eauto. simpl. eauto. }
  rewrite Htabs. simpl. f_equal.
  assert (tabs = tables db) as ->; [|by destruct db].
  apply map_eq. intros m. pose proof (for_tables_Ok _ _ _ _ Htabs m) as Hm.
  destruct (tables db !! m) as [t|] eqn:Ht; [|done].
  destruct (in_scope (tables db) h m) eqn:Hsc; [|done].
  destruct Hm as (t' & Ht' & ->). rewrite close_where_id_no_id in Ht' by eauto.
  simpl in Ht'. injection Ht' as <-. by rewrite set_rows_same.
Qed.

(** X4.  Removing a row that has no history: the handler returns and the
    database is as it was. *)
Theorem remove_without_history_is_noop (now : timestamptz) (n h third : string)
    (old : row) (db : database) (ht : table) :
  tables db !! h = Some ht → has_column "sys_period" ht = true →
  no_history_of h (id old) db →
  update_history_of_row now
    (TriggerData DELETE n ["sys_period"; h; third] (Some old) None) db
  = Ok (db, None).
Proof.
  intros Hh Hc Hno. unfold update_history_of_row, argv. simpl.
  by rewrite (update_sys_period_no_history now h (id old) db ht Hh Hc Hno).
Qed.

Lemma remove_without_history_is_noop_witness :
  update_history_of_row 5
    (TriggerData DELETE "widget" ["sys_period"; "widget_history"; "true"]
                 (Some (Row 2 ["old"] None)) None)
    (widget_db [] [Row 1 ["foo"] (Some (range (Some 0) None))])
  = Ok (widget_db [] [Row 1 ["foo"] (Some (range (Some 0) None))], None).
Proof.
  apply (remove_without_history_is_noop 5 "widget" "widget_history" "true"
           (Row 2 ["old"] None)
           (widget_db [] [Row 1 ["foo"] (Some (range (Some 0) None))])
           (Table widget_history_columns [] false []
                  [Row 1 ["foo"] (Some (range (Some 0) None))])).
  - vm_compute. reflexivity.
  - vm_compute. reflexivity.
  - intros m t Ht _.
    destruct (decide (m = "widget_history")) as [->|Hh].
    { assert (E : tables (widget_db [] [Row 1 ["foo"] (Some (range (Some 0) None))])
                  !! "widget_history"
                  = Some (Table widget_history_columns [] false []
                                [Row 1 ["foo"] (Some (range (Some 0) None))]))
        by (vm_compute; reflexivity).
      rewrite E in Ht. injection Ht as <-. reflexivity. }
    destruct (decide (m = "widget")) as [->|Hw].
    { assert (E : tables (widget_db [] [Row 1 ["foo"] (Some (range (Some 0) None))])
                  !! "widget"
                  = Some (Table widget_columns [] true
                                [capture_trigger "widget" "widget_history"] []))
        by (vm_compute; reflexivity).
      rewrite E in Ht. injection Ht as <-. reflexivity. }
    unfold widget_db in Ht. cbn [tables] in Ht.
    rewrite !lookup_insert_ne, lookup_empty in Ht by done. discriminate.
Defined.

(** X5.  A stored period of the old identity that starts after [now] makes the
    close raise: the handler does not return, and the mutation is lost. *)
Theorem close_before_start_raises (now : timestamptz) (tg : trigger_data)
    (old : row) (db : database) (m : string) (t : table) (r : row)
    (p : tstzrange) (lo : timestamptz) :
  TG_OP tg ≠ INSERT → OLD tg = Some old →
  tables db !! m = Some t → in_scope (tables db) (argv tg 1) m = true →
  r ∈ rows t → id r = id old → sys_period r = Some p → lower p = Some lo →
  now < lo →
  ∃ e, update_history_of_row now tg db = Err e.
Proof.
  intros Hop Hold Ht Hsc Hr Hid Hp Hlo Hlt.
  destruct (update_history_of_row now tg db) as [[db' ret]|e] eqn:H; [|eauto].
  exfalso. unfold update_history_of_row in H.
  destruct (negb (TG_NARGS tg =? 3)%nat); [discriminate|].
  apply bind_Ok in H as (db1 & H1 & _).
  assert (Hb : tg_op_eqb (TG_OP tg) UPDATE || tg_op_eqb (TG_OP tg) DELETE = true)
    by (by destruct (TG_OP tg)).
  rewrite Hb, Hold in H1. simpl in H1.
  apply update_sys_period_Ok in H1 as (_ & _ & _ & H1). specialize (H1 m).
  rewrite Ht, Hsc in H1. destruct H1 as (rs & Hrs & _).
  apply mapR_Ok in Hrs. apply list_elem_of_lookup in Hr as [i Hi].
  destruct (Forall2_lookup_l _ _ _ _ _ Hrs Hi) as (r' & _ & Hr').
  simpl in Hr'. rewrite Hid, Z.eqb_refl in Hr'.
  unfold close_period in Hr'. rewrite Hp in Hr'. simpl in Hr'. rewrite Hlo in Hr'.
  unfold mk_tstzrange in Hr'. destruct (Z.ltb_spec now lo); [|lia]. discriminate.
Qed.

Lemma close_before_start_raises_witness :
  ∃ e, update_history_of_row 3
         (TriggerData UPDATE "widget" ["sys_period"; "widget_history"; "true"]
                      (Some (Row 1 ["foo"] None)) (Some (Row 1 ["bar"] None)))
         (widget_db [Row 1 ["bar"] None]
                    [Row 1 ["foo"] (Some (range (Some 7) None))])
       = Err e.
Proof.
  apply (close_before_start_raises 3
           (TriggerData UPDATE "widget" ["sys_period"; "widget_history"; "true"]
                        (Some (Row 1 ["foo"] None)) (Some (Row 1 ["bar"] None)))
           (Row 1 ["foo"] None)
           (widget_db [Row 1 ["bar"] None]
                      [Row 1 ["foo"] (Some (range (Some 7) None))])
           "widget_history"
           (Table widget_history_columns [] false []
                  [Row 1 ["foo"] (Some (range (Some 7) None))])
           (Row 1 ["foo"] (Some (range (Some 7) None)))
           (range (Some 7) None) 7).
  - discriminate.
  - reflexivity.
  - vm_compute. reflexivity.
  - vm_compute. reflexivity.
  - by left.
  - reflexivity.
  - reflexivity.
  - reflexivity.
  - lia.
Defined.

(** * More on the synthesizer *)

Lemma ddl_step_refl (h : string) (d : database) : ddl_step h d d.
Proof. split_and!; eauto using same_shape_refl. intros m t Ht. eauto 10. Qed.

Lemma ddl_step_trans (h : string) (d1 d2 d3 : database) :
  ddl_step h d1 d2 → ddl_step h d2 d3 → ddl_step h d1 d3.
Proof.
  intros (R1 & I1 & S1 & T1 & F1) (R2 & I2 & S2 & T2 & F2). split_and!.
  - congruence.
  - congruence.
  - eapply same_shape_trans; eauto.
  - intros m t Ht. destruct (T1 _ _ Ht) as (t' & Ht' & P1 & G1 & E1 & C1).
    destruct (T2 _ _ Ht') as (t'' & Ht'' & P2 & G2 & E2 & C2).
    exists t''. split_and!; [done | congruence | congruence | auto | auto].
  - intros m Hm. rewrite F2, F1; [done..|].
    by rewrite <- (in_scope_shape _ _ _ _ S1).
Qed.

Lemma for_tables_ddl_step (h : string) (f : table → result table)
    (d : database) (tabs : gmap string table) :
  (∀ t t', f t = Ok t' →
           inherits t' = inherits t ∧ primary_key t' = primary_key t
           ∧ triggers t' = triggers t ∧ (rows t = [] → rows t' = [])
           ∧ (has_column "sys_period" t = true → has_column "sys_period" t' = true)) →
  for_tables (in_scope (tables d) h) f (tables d) = Ok tabs →
  ddl_step h d (set_tables tabs d).
Proof.
  intros Hf H. split_and!; [done | done | | |].
  - eapply for_tables_shape; [|exact H]. intros t t' Ht. by apply Hf in Ht as (? & _).
  - intros m t Ht. pose proof (for_tables_Ok _ _ _ _ H m) as Hm. rewrite Ht in Hm.
    simpl. destruct (in_scope (tables d) h m).
    + destruct Hm as (t' & Ht' & ->). apply Hf in Ht' as (_ & ? & ? & ? & ?). eauto 10.
    + rewrite Hm. eauto 10.
  - intros m Hm. pose proof (for_tables_Ok _ _ _ _ H m) as Hl. rewrite Hm in Hl.
    simpl. by destruct (tables d !! m).
Qed.

Lemma has_column_change (change : column → column) (c c0 : string)
    (cols : list column) :
  (∀ col, column_name (change col) = column_name col) →
  existsb (fun col => String.eqb (column_name col) c0)
          (map (fun col => if String.eqb (column_name col) c then change col else col)
               cols)
  = existsb (fun col => String.eqb (column_name col) c0) cols.
Proof.
  intros Hch. induction cols as [|col cols IH]; [done|]. simpl. rewrite IH.
  destruct (String.eqb (column_name col) c); by rewrite ?Hch.
Qed.

Lemma alter_column_ddl_step (change : column → column) (h c : string)
    (d d' : database) :
  (∀ col, column_name (change col) = column_name col) →
  alter_column change h c d = Ok d' → ddl_step h d d'.
Proof.
  intros Hch. unfold alter_column. destruct (tables d !! h); [|discriminate].
  destruct (has_column c t); [|discriminate]. intros H.
  apply bind_Ok in H as (tabs & Htabs & H). injection H as <-.
  eapply for_tables_ddl_step; [|exact Htabs].
  intros t0 t0' Ht0. injection Ht0 as <-. simpl. split_and!; [done..|].
  unfold has_column. simpl. by rewrite has_column_change.
Qed.

Lemma add_sys_period_ddl_step (now : timestamptz) (h : string) (d d' : database) :
  add_sys_period now h d = Ok d' → ddl_step h d d'.
Proof.
  unfold add_sys_period. destruct (tables d !! h); [|discriminate]. intros H.
  apply bind_Ok in H as (tabs & Htabs & H). injection H as <-.
  eapply for_tables_ddl_step; [|exact Htabs].
  intros t0 t0' Ht0. simpl in Ht0. injection Ht0 as <-. simpl.
  split_and!; [done..| |].
  - by intros ->.
  - unfold has_column. simpl. intros Hc. fold (has_column "sys_period" t0).
    unfold has_column. by rewrite Hc.
Qed.

Lemma add_sys_period_has_column (now : timestamptz) (h : string) (d d' : database) :
  add_sys_period now h d = Ok d' →
  ∃ t', tables d' !! h = Some t' ∧ has_column "sys_period" t' = true.
Proof.
  unfold add_sys_period. destruct (tables d !! h) as [t|] eqn:Hh; [|discriminate].
  intros H. apply bind_Ok in H as (tabs & Htabs & H). injection H as <-.
  pose proof (for_tables_Ok _ _ _ _ Htabs h) as Hm.
  rewrite Hh, in_scope_self in Hm. destruct Hm as (t' & Ht' & Hl).
  exists t'. split; [done|]. simpl in Ht'. injection Ht' as <-.
  unfold has_column. simpl.
  destruct (existsb _ (columns t)) eqn:Hc; [done|].
  rewrite existsb_app. simpl. by rewrite orb_true_r.
Qed.

Lemma create_table_like_Ok (h l : string) (parent : option string)
    (d d' : database) :
  create_table_like h l parent d = Ok d' →
  catmaid_history_table d' = catmaid_history_table d
  ∧ indexes d' = indexes d
  ∧ (d' = d ∧ relation_exists h d = true
     ∨ relation_exists h d = false
       ∧ ∃ cols, tables d'
                 = <[h := Table cols (match parent with Some p => [p] | None => [] end)
                                false [] []]> (tables d)
                 ∧ (∀ p, parent = Some p → is_Some (tables d !! p))).
Proof.
  unfold create_table_like. destruct (relation_exists h d) eqn:Hex.
  { intros [= <-]. auto. }
  destruct (tables d !! l) as [lt|]; [|discriminate].
  destruct parent as [p|].
  - destruct (tables d !! p) as [pt|] eqn:Hp; [|discriminate]. intros [= <-].
    split_and!; [done..|]. right. split; [done|]. eexists. split; [done|].
    intros p' [= <-]. eauto.
  - intros [= <-]. split_and!; [done..|]. right. split; [done|].
    eexists. split; [done|]. discriminate.
Qed.

Lemma relation_exists_false (h : string) (d : database) :
  relation_exists h d = false → tables d !! h = None ∧ indexes d !! h = None.
Proof.
  unfold relation_exists. intros H. apply orb_false_elim in H as [H1 H2].
  apply bool_decide_eq_false in H1, H2. split; by apply eq_None_not_Some.
Qed.

Section MoreSynthesizerFacts.

Variable keyword : string → bool.

Abbreviation hname := (history_table_name keyword).

Lemma columns_loop_ddl_step (h : string) (cols : list column) (d d' : database) :
  foldM (fun d column_info =>
           d' ← alter_column drop_not_null h (column_name column_info) d;
           alter_column set_default_null h (column_name column_info) d')
        d cols = Ok d' →
  ddl_step h d d'.
Proof.
  intros H. eapply (foldM_invariant (ddl_step h d)); [|apply ddl_step_refl|exact H].
  intros c t t' Ht Hb. apply bind_Ok in Hb as (t1 & Ht1 & Hb).
  eapply ddl_step_trans; [exact Ht|]. eapply ddl_step_trans.
  - eapply alter_column_ddl_step; [|exact Ht1]. done.
  - eapply alter_column_ddl_step; [|exact Hb]. done.
Qed.

(** The stages of a call that the guard lets through. *)
Lemma create_history_table_stages (d : nat) (now : timestamptz) (s n : string)
    (ct ci : bool) (db db1 : database) :
  is_registered (hname n) db = false →
  create_history_table keyword (S d) now s n ct ci db = Ok db1 →
  ∃ pd db2 db4 db5,
    (if ci then
       match inheritening_of s n db with
       | [] => pd = (None, db)
       | [p] =>
           pd.1 = Some p
           ∧ create_history_table keyword d now (parent_schemaname p)
               (parent_tablename p) true true db = Ok pd.2
       | _ :: _ :: _ => False
       end
     else pd = (None, db))
    ∧ create_table_like (hname n) n
        ((fun p : inheritening => hname (parent_tablename p)) <$> pd.1) pd.2
      = Ok db2
    ∧ ddl_step (hname n) db2 db4
    ∧ (∃ t4, tables db4 !! hname n = Some t4 ∧ has_column "sys_period" t4 = true)
    ∧ tables db5 = tables db4
    ∧ catmaid_history_table db5 = catmaid_history_table db4
    ∧ (indexes db5 = indexes db4
       ∨ relation_exists (hname n +:+ "_sys_period") db4 = false
         ∧ indexes db5 = <[hname n +:+ "_sys_period" := hname n]> (indexes db4))
    ∧ relation_exists (hname n +:+ "_sys_period") db5 = true
    ∧ (if ct then
         ∃ t, tables db5 !! n = Some t
              ∧ existsb (fun g => String.eqb (tgname g) (trigger_name n))
                        (triggers t) = false
              ∧ is_registered (hname n) db5 = false
              ∧ db1 = Database
                        (<[n := set_triggers
                                  (triggers t ++ [capture_trigger n (hname n)]) t]>
                           (tables db5))
                        (indexes db5)
                        (catmaid_history_table db5 ++ [HistoryEntry (hname n) n now])
       else db1 = db5).
Proof.
  intros Hreg H. apply create_history_table_inv in H as [_ H]. rewrite Hreg in H.
  destruct H as (pd & db2 & db3 & db4 & db5 & Hpd & H2 & H3 & H4 & H5 & H6).
  exists pd, db2, db4, db5.
  pose proof (columns_loop_ddl_step _ _ _ _ H3) as S3.
  assert (S4 : ddl_step (hname n) db3 db4
               ∧ ∃ t4, tables db4 !! hname n = Some t4
                       ∧ has_column "sys_period" t4 = true).
  { destruct (tables db3 !! hname n) as [t3|] eqn:Ht3.
    - destruct (has_column "sys_period" t3) eqn:Hc.
      + subst db4. split; [apply ddl_step_refl | eauto].
      + split; [by eapply add_sys_period_ddl_step | by eapply add_sys_period_has_column].
    - split; [by eapply add_sys_period_ddl_step | by eapply add_sys_period_has_column]. }
  destruct S4 as [S4 Hcol].
  assert (S5 : tables db5 = tables db4
               ∧ catmaid_history_table db5 = catmaid_history_table db4
               ∧ (indexes db5 = indexes db4
                  ∨ relation_exists (hname n +:+ "_sys_period") db4 = false
                    ∧ indexes db5 = <[hname n +:+ "_sys_period" := hname n]> (indexes db4))
               ∧ relation_exists (hname n +:+ "_sys_period") db5 = true).
  { destruct (relation_exists _ db4) eqn:Hex; [subst db5; auto|].
    unfold create_index in H5. rewrite Hex in H5.
    destruct (tables db4 !! hname n); [|discriminate].
    destruct (has_column "sys_period" t); [|discriminate]. injection H5 as <-.
    simpl. split_and!; [done | done | by right |].
    unfold relation_exists. simpl. rewrite lookup_insert_eq.
    rewrite (bool_decide_eq_true_2 (is_Some (Some _))) by eauto. apply orb_true_r. }
  destruct S5 as (T5 & R5 & I5 & E5).
  split_and!; [done | done | by eapply ddl_step_trans | done..|].
  destruct ct; [|done]. destruct H6 as (db6 & H6 & H7).
  apply insert_catmaid_history_table_Ok in H7 as [Hreg6 ->].
  unfold create_trigger in H6. destruct (tables db5 !! n) as [t|] eqn:Ht; [|discriminate].
  destruct (existsb _ (triggers t)) eqn:Hex; [discriminate|]. injection H6 as <-.
  exists t. split_and!; [done | done | |done].
  by unfold is_registered in *.
Qed.

Lemma entries_of_snoc (k h l : string) (now : timestamptz) (db : database)
    (tabs : gmap string table) (idx : gmap string string) :
  entries_of k (Database tabs idx
                         (catmaid_history_table db ++ [HistoryEntry h l now]))
  = entries_of k db ++ (if String.eqb h k then [HistoryEntry h l now] else []).
Proof. unfold entries_of. simpl. by rewrite List.filter_app. Qed.

(** X8.  After a call that the guard lets through, the history table is there
    with its validity column, and a relation bears the name of its index. *)
Theorem create_history_table_ensures_period (d : nat) (now : timestamptz)
    (s n : string) (ct ci : bool) (db db1 : database) :
  is_registered (hname n) db = false →
  create_history_table keyword d now s n ct ci db = Ok db1 →
  ∃ ht, tables db1 !! hname n = Some ht
        ∧ has_column "sys_period" ht = true
        ∧ relation_exists (hname n +:+ "_sys_period") db1 = true.
Proof.
  intros Hreg H. destruct d as [|d]; [discriminate|].
  apply create_history_table_stages in H
    as (pd & db2 & db4 & db5 & _ & _ & _ & (t4 & Ht4 & Hc4) & T5 & _ & _ & E5 & H6);
    [|done].
  destruct ct; [|subst db1; rewrite T5; eauto].
  destruct H6 as (t & Ht & _ & _ & ->). simpl.
  assert (E1 : relation_exists (hname n +:+ "_sys_period")
                 (Database
                    (<[n := set_triggers (triggers t ++ [capture_trigger n (hname n)]) t]>
                       (tables db5)) (indexes db5)
                    (catmaid_history_table db5 ++ [HistoryEntry (hname n) n now]))
               = true).
  { unfold relation_exists in *. simpl. apply orb_prop in E5 as [E5|E5].
    - apply bool_decide_eq_true in E5. rewrite bool_decide_eq_true_2; [done|].
      rewrite lookup_insert_is_Some. destruct (decide (n = hname n +:+ "_sys_period"));
        [by left | by right].
    - by rewrite E5, orb_true_r. }
  rewrite lookup_insert_ne by (intros Hn; by apply (history_table_name_neq keyword n)).
  rewrite T5 in E1 |- *. eauto.
Qed.

(** X9.  [create_history_table] keeps the primary key of the registry. *)
Theorem create_history_table_keeps_registry_key (d : nat) (now : timestamptz)
    (s n : string) (ct ci : bool) (db db1 : database) :
  registry_keys_unique db →
  create_history_table keyword d now s n ct ci db = Ok db1 →
  registry_keys_unique db1.
Proof.
  revert s n ct ci db db1.
  induction d as [|d IH]; intros s n ct ci db db1 Hu H; [discriminate|].
  destruct (is_registered (hname n) db) eqn:Hreg.
  { apply create_history_table_inv in H as [_ H]. rewrite Hreg in H. by subst. }
  apply create_history_table_stages in H
    as (pd & db2 & db4 & db5 & Hpd & H2 & S4 & _ & _ & R5 & _ & _ & H6); [|done].
  assert (Up : registry_keys_unique pd.2).
  { destruct ci; [|by subst].
    destruct (inheritening_of s n db) as [|p [|p' ps]]; [by subst | | done].
    destruct Hpd as [_ Hpd]. eauto. }
  apply create_table_like_Ok in H2 as (R2 & _ & _).
  destruct S4 as (R4 & _).
  assert (U5 : registry_keys_unique db5).
  { intros k. unfold entries_of. rewrite R5, R4, R2. apply Up. }
  destruct ct; [|by subst]. destruct H6 as (t & _ & _ & Hreg5 & ->).
  intros k. rewrite entries_of_snoc, length_app.
  destruct (String.eqb_spec (hname n) k) as [<-|Hk]; simpl.
  - apply is_registered_entries in Hreg5. rewrite Hreg5. simpl. lia.
  - specialize (U5 k). lia.
Qed.

(** X10.  With [create_triggers] and [copy_inheritance] both false the call only
    builds the structure: the registry and the triggers of every table are
    as before. *)
Theorem create_history_table_structure_only (d : nat) (now : timestamptz)
    (s n : string) (db db1 : database) :
  create_history_table keyword d now s n false false db = Ok db1 →
  catmaid_history_table db1 = catmaid_history_table db
  ∧ ∀ m, triggers_of m db1 = triggers_of m db.
Proof.
  intros H. destruct d as [|d]; [discriminate|].
  destruct (is_registered (hname n) db) eqn:Hreg.
  { apply create_history_table_inv in H as [_ H]. rewrite Hreg in H. by subst. }
  apply create_history_table_stages in H
    as (pd & db2 & db4 & db5 & -> & H2 & S4 & _ & T5 & R5 & _ & _ & ->); [|done].
  simpl in H2. apply create_table_like_Ok in H2 as (R2 & _ & H2).
  destruct S4 as (R4 & _ & Sh & T4 & _). split; [congruence|].
  intros m. unfold triggers_of. rewrite T5.
  assert (E2 : match tables db2 !! m with Some t => triggers t | None => [] end
               = match tables db !! m with Some t => triggers t | None => [] end).
  { destruct H2 as [[-> _]|(Hex & cols & -> & _)]; [done|].
    apply relation_exists_false in Hex as [Hex _].
    destruct (decide (hname n = m)) as [<-|Hm].
    - by rewrite lookup_insert_eq, Hex.
    - by rewrite lookup_insert_ne. }
  rewrite <- E2. destruct (tables db2 !! m) as [t|] eqn:Ht.
  - destruct (T4 _ _ Ht) as (t' & -> & _ & -> & _). done.
  - specialize (Sh m). rewrite Ht in Sh. by destruct (tables db4 !! m).
Qed.

End MoreSynthesizerFacts.

Lemma inherits_from_no_child (fuel : nat) (tabs : gmap string table)
    (c a : string) :
  (∀ m t, tabs !! m = Some t → a ∉ inherits t) →
  inherits_from fuel tabs c a = true → c = a.
Proof.
  intros Hno. revert c. induction fuel as [|fuel IH]; intros c; simpl.
  - rewrite orb_false_r. by intros ?%bool_decide_eq_true.
  - intros [H|H]%orb_prop; [by apply bool_decide_eq_true in H|].
    destruct (tabs !! c) as [t|] eqn:Ht; [|discriminate].
    apply existsb_exists in H as (p & Hp & H). apply IH in H as ->.
    exfalso. eapply Hno; [exact Ht|]. by apply list_elem_of_In.
Qed.

Lemma set_triggers_same (t : table) : set_triggers (triggers t) t = t.
Proof. by destruct t. Qed.

Lemma filter_other_names (tg : string) (gs : list trigger) :
  existsb (fun g => String.eqb (tgname g) tg) gs = false →
  List.filter (fun g => negb (String.eqb (tgname g) tg)) gs = gs.
Proof.
  induction gs as [|g gs IH]; simpl; [done|].
  intros [Hg Hgs]%orb_false_elim. rewrite Hg. simpl. by rewrite IH.
Qed.

Lemma filter_other_lives (l : string) (es : list history_entry) :
  List.filter (fun cht => String.eqb (cht_live_table_name cht) l) es = [] →
  List.filter (fun cht => negb (String.eqb (cht_live_table_name cht) l)) es = es.
Proof.
  induction es as [|e es IH]; simpl; [done|].
  destruct (String.eqb (cht_live_table_name e) l); [discriminate|].
  simpl. intros H. by rewrite IH.
Qed.

Lemma lookup_filter_key {A : Type} (P : string → bool) (m : gmap string A)
    (k : string) :
  filter (fun nt : string * A => P nt.1 = false) m !! k
  = if P k then None else m !! k.
Proof.
  destruct (P k) eqn:Hk.
  - apply map_lookup_filter_None. right. intros x _. simpl. by rewrite Hk.
  - destruct (m !! k) as [x|] eqn:Hx.
    + by apply map_lookup_filter_Some.
    + apply map_lookup_filter_None. by left.
Qed.

Lemma lookup_filter_value (P : string → bool) (m : gmap string string)
    (k : string) :
  filter (fun it : string * string => P it.2 = false) m !! k
  = match m !! k with
    | Some h => if P h then None else Some h
    | None => None
    end.
Proof.
  destruct (m !! k) as [h|] eqn:Hk.
  - destruct (P h) eqn:Hh.
    + apply map_lookup_filter_None. right. intros x Hx. simpl.
      assert (x = h) as -> by congruence. by rewrite Hh.
    + by apply map_lookup_filter_Some.
  - apply map_lookup_filter_None. by left.
Qed.

Section FreshHistory.

Variable keyword : string → bool.

Abbreviation hname := (history_table_name keyword).

(** A call for a live table without a history of any kind, which does not
    follow the inheritance of the live table: the database it returns. *)
Lemma create_history_table_fresh (d : nat) (now : timestamptz) (s n : string)
    (ct ci : bool) (db db1 : database) :
  parents_exist db →
  relation_exists (hname n) db = false →
  is_registered (hname n) db = false →
  ci = false ∨ inheritening_of s n db = [] →
  create_history_table keyword d now s n ct ci db = Ok db1 →
  (∃ ht, tables db1 !! hname n = Some ht ∧ inherits ht = [] ∧ rows ht = []
         ∧ triggers ht = [] ∧ has_column "sys_period" ht = true)
  ∧ (∀ m, m ≠ hname n → m ≠ n → tables db1 !! m = tables db !! m)
  ∧ (∃ t, tables db !! n = Some t
          ∧ tables db1 !! n
            = Some (if ct then set_triggers
                                 (triggers t ++ [capture_trigger n (hname n)]) t
                    else t)
          ∧ (ct = true →
             existsb (fun g => String.eqb (tgname g) (trigger_name n))
                     (triggers t) = false))
  ∧ catmaid_history_table db1
    = (if ct then catmaid_history_table db ++ [HistoryEntry (hname n) n now]
       else catmaid_history_table db)
  ∧ (indexes db1 = indexes db
     ∧ relation_exists (hname n +:+ "_sys_period") db = true
     ∨ indexes db1 = <[hname n +:+ "_sys_period" := hname n]> (indexes db)
       ∧ relation_exists (hname n +:+ "_sys_period") db = false)
  ∧ (∀ m t, tables db1 !! m = Some t → hname n ∉ inherits t).
Proof.
  intros Hpar Hex Hreg Hci H. destruct d as [|d]; [discriminate|].
  pose proof H as Hinv. apply create_history_table_inv in Hinv as [Hrc _].
  apply create_history_table_stages in H
    as (pd & db2 & db4 & db5 & Hpd & H2 & S4 & (t4 & Ht4 & Hc4) & T5 & R5 & I5 & E5 & H6);
    [|done].
  assert (pd = (None, db)) as ->.
  { destruct ci; [|done]. destruct Hci as [?|Hci]; [done|]. by rewrite Hci in Hpd. }
  clear Hpd. simpl in H2.
  apply create_table_like_Ok in H2 as (R2 & I2 & [[_ H2]|(_ & cols & T2 & _)]);
    [congruence|].
  pose proof (relation_exists_false _ _ Hex) as [Hth Hih].
  assert (Hn : is_Some (tables db !! n)).
  { unfold regclass in Hrc. destruct (String.eqb s "public"); [|discriminate].
    simpl in Hrc. case_bool_decide; [done|discriminate]. }
  destruct Hn as [t Ht].
  assert (Hnh : n ≠ hname n) by (intros E; by apply (history_table_name_neq keyword n)).
  (* no table names the history table as its parent *)
  assert (Hno2 : ∀ m t', tables db2 !! m = Some t' → hname n ∉ inherits t').
  { intros m t'. rewrite T2. destruct (decide (hname n = m)) as [<-|Hm].
    - rewrite lookup_insert_eq. intros [= <-]. simpl. apply not_elem_of_nil.
    - rewrite lookup_insert_ne by done. intros Hm' Hin.
      destruct (Hpar _ _ _ Hm' Hin) as [? ?]. congruence. }
  assert (Hsc2 : ∀ m, m ≠ hname n → in_scope (tables db2) (hname n) m = false).
  { intros m Hm. destruct (in_scope (tables db2) (hname n) m) eqn:E; [|done].
    apply inherits_from_no_child in E; done. }
  destruct S4 as (R4 & I4 & Sh4 & T4 & F4).
  assert (Ho : ∀ m, m ≠ hname n → tables db5 !! m = tables db !! m).
  { intros m Hm. rewrite T5, F4 by auto. rewrite T2. by rewrite lookup_insert_ne. }
  assert (Hh5 : ∃ ht, tables db5 !! hname n = Some ht ∧ inherits ht = [] ∧ rows ht = []
                      ∧ triggers ht = [] ∧ has_column "sys_period" ht = true).
  { rewrite T5. exists t4. split; [done|].
    assert (H2h : tables db2 !! hname n = Some (Table cols [] false [] [])).
    { rewrite T2. by rewrite lookup_insert_eq. }
    destruct (T4 _ _ H2h) as (t' & Ht' & _ & Htg & Hr & _).
    rewrite Ht4 in Ht'. injection Ht' as <-.
    specialize (Sh4 (hname n)). rewrite H2h, Ht4 in Sh4. simpl in Sh4.
    injection Sh4 as Sh4. split_and!; [done | by apply Hr | done | done]. }
  assert (Hno5 : ∀ m t', tables db5 !! m = Some t' → hname n ∉ inherits t').
  { intros m t' Hm. rewrite T5 in Hm. specialize (Sh4 m). rewrite Hm in Sh4.
    destruct (tables db2 !! m) as [t2|] eqn:E2; [|discriminate].
    simpl in Sh4. injection Sh4 as <-. eauto. }
  assert (Hidx : indexes db5 = indexes db
                 ∧ relation_exists (hname n +:+ "_sys_period") db = true
                 ∨ indexes db5 = <[hname n +:+ "_sys_period" := hname n]> (indexes db)
                   ∧ relation_exists (hname n +:+ "_sys_period") db = false).
  { assert (Hi : hname n +:+ "_sys_period" ≠ hname n).
    { intros E. apply (f_equal String.length) in E.
      rewrite length_append in E. simpl in E. lia. }
    assert (Erel : relation_exists (hname n +:+ "_sys_period") db4
                   = relation_exists (hname n +:+ "_sys_period") db).
    { unfold relation_exists. rewrite I4, I2. f_equal.
      rewrite <- T5, Ho by done. done. }
    rewrite Erel in I5. rewrite I4, I2 in I5.
    destruct I5 as [I5|[I5 I5']]; [|by right].
    left. split; [done|]. etrans; [|exact E5]. unfold relation_exists.
    rewrite I5. f_equal. by rewrite Ho. }
  destruct ct.
  - destruct H6 as (t5 & Ht5 & Htg & _ & ->). simpl.
    rewrite Ho in Ht5 by done. assert (t5 = t) as -> by congruence.
    split_and!.
    + rewrite lookup_insert_ne by done. exact Hh5.
    + intros m Hm Hm'. rewrite lookup_insert_ne by done. by apply Ho.
    + exists t. by rewrite lookup_insert_eq.
    + by rewrite R5, R4, R2.
    + exact Hidx.
    + intros m t'. destruct (decide (n = m)) as [<-|Hm].
      * rewrite lookup_insert_eq. intros [= <-]. simpl.
        apply (Hno5 n t). by rewrite Ho.
      * rewrite lookup_insert_ne by done. apply Hno5.
  - subst db1. split_and!.
    + exact Hh5.
    + intros m Hm _. by apply Ho.
    + exists t. split_and!; [done | by rewrite Ho | discriminate].
    + by rewrite R5, R4, R2.
    + exact Hidx.
    + exact Hno5.
Qed.

(** X16 (round trip).  Creating the history of a live table that has none,
    without following its inheritance, and dropping it again gives back the
    database the creation started from. *)
Theorem create_then_drop_restores (d : nat) (now : timestamptz) (s n : string)
    (ci : bool) (db db1 : database) :
  parents_exist db → indexes_on_tables db →
  relation_exists (hname n) db = false →
  relation_exists (hname n +:+ "_sys_period") db = false →
  is_registered (hname n) db = false →
  entries_for n db = [] →
  ci = false ∨ inheritening_of s n db = [] →
  create_history_table keyword d now s n true ci db = Ok db1 →
  drop_history_table keyword n db1 = Ok db.
Proof.
  intros Hpar Hidx Hex Hexi Hreg Hent Hci H.
  destruct (create_history_table_fresh _ _ _ _ _ _ _ _ Hpar Hex Hreg Hci H)
    as ((ht & Hh1 & _) & Ho & (t & Ht & Ht1 & Htg) & R1 & I1 & Hno).
  destruct I1 as [[_ I1]|[I1 _]]; [congruence|].
  pose proof (relation_exists_false _ _ Hex) as [Hth _].
  pose proof (relation_exists_false _ _ Hexi) as [_ Hii].
  assert (Hnh : n ≠ hname n) by (intros E; by apply (history_table_name_neq keyword n)).
  assert (G : ∀ m, in_scope (tables db1) (hname n) m = true → m = hname n).
  { intros m Hm. by apply inherits_from_no_child in Hm. }
  assert (Gn : in_scope (tables db1) (hname n) n = false).
  { destruct (in_scope (tables db1) (hname n) n) eqn:E; [|done]. by apply G in E. }
  unfold drop_history_table, drop_table_cascade. rewrite Hh1. simpl.
  unfold drop_trigger. simpl. rewrite lookup_filter_key, Gn, Ht1.
  unfold delete_catmaid_history_table. simpl. f_equal. apply database_eq; simpl.
  - apply map_eq. intros m. destruct (decide (n = m)) as [<-|Hm].
    + rewrite lookup_insert_eq, Ht. f_equal. unfold set_triggers. simpl.
      rewrite List.filter_app, filter_other_names by auto. simpl.
      rewrite String.eqb_refl. simpl. rewrite app_nil_r. by destruct t.
    + rewrite lookup_insert_ne by done. rewrite lookup_filter_key.
      destruct (in_scope (tables db1) (hname n) m) eqn:E.
      * apply G in E as ->. by rewrite Hth.
      * apply Ho; [|done]. intros ->. by rewrite in_scope_self in E.
  - apply map_eq. intros i. rewrite lookup_filter_value, I1.
    destruct (decide (hname n +:+ "_sys_period" = i)) as [<-|Hi].
    + by rewrite lookup_insert_eq, in_scope_self, Hii.
    + rewrite lookup_insert_ne by done. destruct (indexes db !! i) as [h|] eqn:E; [|done].
      destruct (in_scope (tables db1) (hname n) h) eqn:Eh; [|done].
      apply G in Eh as ->. destruct (Hidx _ _ E) as [? ?]. congruence.
  - rewrite R1, List.filter_app. simpl.
    rewrite String.eqb_refl. simpl. rewrite app_nil_r. by apply filter_other_lives.
Qed.

(** X14 (a new history is empty).  The rows a live table holds when its
    history is created are not copied: the new history table is empty, and
    the live rows are as before. *)
Theorem fresh_history_starts_empty (d : nat) (now : timestamptz) (s n : string)
    (ct ci : bool) (db db1 : database) :
  parents_exist db →
  relation_exists (hname n) db = false →
  is_registered (hname n) db = false →
  ci = false ∨ inheritening_of s n db = [] →
  create_history_table keyword d now s n ct ci db = Ok db1 →
  rows_of (hname n) db1 = [] ∧ rows_of n db1 = rows_of n db.
Proof.
  intros Hpar Hex Hreg Hci H.
  destruct (create_history_table_fresh _ _ _ _ _ _ _ _ Hpar Hex Hreg Hci H)
    as ((ht & Hh1 & _ & Hr & _) & _ & (t & Ht & Ht1 & _) & _).
  unfold rows_of. rewrite Hh1, Ht1, Ht. split; [done|]. by destruct ct.
Qed.



Lemma inherits_from_refl (fuel : nat) (tabs : gmap string table) (a : string) :
  inherits_from fuel tabs a a = true.
Proof. destruct fuel; simpl; by rewrite bool_decide_eq_true_2. Qed.

Lemma is_registered_elem (e : history_entry) (db : database) :
  e ∈ catmaid_history_table db → is_registered (cht_history_table_name e) db = true.
Proof.
  intros He. unfold is_registered. apply existsb_exists. exists e.
  split; [by apply list_elem_of_In | apply String.eqb_refl].
Qed.

Lemma is_registered_inv (h : string) (db : database) :
  is_registered h db = true →
  ∃ e, e ∈ catmaid_history_table db ∧ cht_history_table_name e = h.
Proof.
  unfold is_registered. intros (e & He & E)%existsb_exists.
  exists e. split; [by apply list_elem_of_In | by apply String.eqb_eq].
Qed.

(** X13 (inheritance is mirrored).  When the only parent of the live table is
    versioned already and no relation has the history name yet, the new
    history table inherits from the history table of the parent, and so is
    within the reach of a statement on the parent history. *)
Theorem child_history_inherits_parent_history (d : nat) (now : timestamptz)
    (s n : string) (ct : bool) (p : inheritening) (db db1 : database) :
  inheritening_of s n db = [p] →
  is_registered (hname (parent_tablename p)) db = true →
  relation_exists (hname n) db = false →
  is_registered (hname n) db = false →
  create_history_table keyword d now s n ct true db = Ok db1 →
  ∃ ht, tables db1 !! hname n = Some ht
        ∧ inherits ht = [hname (parent_tablename p)]
        ∧ in_scope (tables db1) (hname (parent_tablename p)) (hname n) = true.
Proof.
  intros Hp Hregp Hex Hreg H. destruct d as [|d]; [discriminate|].
  apply create_history_table_stages in H
    as (pd & db2 & db4 & db5 & Hpd & H2 & S4 & _ & T5 & _ & _ & _ & H6); [|done].
  rewrite Hp in Hpd. destruct Hpd as [Hp1 Hpd].
  destruct d as [|d]; [discriminate|].
  apply create_history_table_inv in Hpd as [_ Hpd]. rewrite Hregp in Hpd.
  destruct pd as [pi pdb]. simpl in *. subst pi pdb. simpl in H2.
  apply create_table_like_Ok in H2 as (_ & _ & [[_ H2]|(_ & cols & T2 & _)]);
    [congruence|].
  destruct S4 as (_ & _ & Sh4 & _).
  assert (H5 : ∃ ht, tables db5 !! hname n = Some ht
                     ∧ inherits ht = [hname (parent_tablename p)]).
  { rewrite T5. specialize (Sh4 (hname n)). rewrite T2, lookup_insert_eq in Sh4.
    destruct (tables db4 !! hname n) as [ht|]; [|discriminate].
    simpl in Sh4. injection Sh4 as Sh4. eauto. }
  destruct H5 as (ht & Hh5 & Hi5).
  assert (H1 : tables db1 !! hname n = Some ht).
  { destruct ct; [|by subst]. destruct H6 as (t & _ & _ & _ & ->). simpl.
    rewrite lookup_insert_ne; [done|].
    intros E. by apply (history_table_name_neq keyword n). }
  exists ht. split_and!; [done..|]. unfold in_scope.
  destruct (size (tables db1)) as [|k] eqn:Hk.
  { apply map_size_empty_iff in Hk. rewrite Hk in H1. by rewrite lookup_empty in H1. }
  simpl. rewrite H1, Hi5. simpl. rewrite inherits_from_refl. by rewrite orb_true_r.
Qed.


End FreshHistory.

Section TeardownFacts.

Variable keyword : string → bool.

Abbreviation hname := (history_table_name keyword).

(** One call of [drop_history_table]: it returns unless an index has the
    history name, and only takes away. *)
Lemma drop_history_table_step (A : string) (d : database) :
  indexes d !! hname A = None →
  ∃ d', drop_history_table keyword A d = Ok d'
    ∧ tables d' !! hname A = None
    ∧ (∀ m, tables d !! m = None → tables d' !! m = None)
    ∧ (∀ m g, g ∈ triggers_of m d' → g ∈ triggers_of m d)
    ∧ (∀ g, g ∈ triggers_of A d' → tgname g ≠ trigger_name A)
    ∧ (∀ e, e ∈ catmaid_history_table d'
            ↔ e ∈ catmaid_history_table d ∧ cht_live_table_name e ≠ A)
    ∧ (∀ i, indexes d !! i = None → indexes d' !! i = None).
Proof.
  intros Hi. unfold drop_history_table.
  assert (H1 : ∃ d1, drop_table_cascade (hname A) d = Ok d1).
  { unfold drop_table_cascade. destruct (tables d !! hname A); [eauto|].
    rewrite bool_decide_eq_false_2; [eauto|]. rewrite Hi. by intros [? ?]. }
  destruct H1 as [d1 H1]. rewrite H1. simpl. eexists. split; [done|].
  apply drop_table_cascade_Ok in H1 as (Hh & Hm & _ & Hidx & Hr).
  assert (Hnh : A ≠ hname A) by (intros E; by apply (history_table_name_neq keyword A)).
  assert (Htab : ∀ m, m ≠ A →
            tables (drop_trigger (trigger_name A) A d1) !! m = tables d1 !! m).
  { intros m Hne. unfold drop_trigger. destruct (tables d1 !! A); [|done].
    simpl. by rewrite lookup_insert_ne. }
  assert (HtA : triggers_of A (drop_trigger (trigger_name A) A d1)
                = List.filter (fun g => negb (String.eqb (tgname g) (trigger_name A)))
                    (triggers_of A d1)).
  { unfold triggers_of, drop_trigger. destruct (tables d1 !! A) as [t|] eqn:Ht.
    - simpl. by rewrite lookup_insert_eq.
    - by rewrite Ht. }
  assert (Hsub : ∀ m g, g ∈ triggers_of m d1 → g ∈ triggers_of m d).
  { intros m g. unfold triggers_of. destruct (Hm m) as [->| ->]; [|done].
    by intros ?%elem_of_nil. }
  unfold delete_catmaid_history_table. simpl. split_and!.
  - rewrite Htab by done. exact Hh.
  - intros m Hn. destruct (decide (m = A)) as [->|Hne].
    + unfold drop_trigger. destruct (Hm A) as [E|E].
      * by rewrite E.
      * rewrite E, Hn. by rewrite E, Hn.
    + rewrite Htab by done. destruct (Hm m) as [E|E]; congruence.
  - intros m g Hg. apply Hsub. destruct (decide (m = A)) as [->|Hne].
    + change (g ∈ triggers_of A (drop_trigger (trigger_name A) A d1)) in Hg.
      rewrite HtA in Hg. apply list_elem_of_In, filter_In in Hg as [Hg _].
      by apply list_elem_of_In.
    + unfold triggers_of in *. simpl in Hg. by rewrite Htab in Hg.
  - intros g Hg.
    change (g ∈ triggers_of A (drop_trigger (trigger_name A) A d1)) in Hg.
    rewrite HtA in Hg. apply list_elem_of_In, filter_In in Hg as [_ Hg].
    apply negb_true_iff in Hg. by apply String.eqb_neq.
  - intros e. rewrite drop_trigger_registry, Hr.
    rewrite !list_elem_of_In, filter_In, negb_true_iff, String.eqb_neq. done.
  - intros i Hn. rewrite drop_trigger_indexes. by apply Hidx.
Qed.

Lemma drop_loop (l : list history_entry) (d : database) :
  (∀ e, e ∈ l → indexes d !! hname (cht_live_table_name e) = None) →
  ∃ d', foldM (fun d row => drop_history_table keyword (cht_live_table_name row) d)
              d l = Ok d'
    ∧ (∀ m, tables d !! m = None → tables d' !! m = None)
    ∧ (∀ m g, g ∈ triggers_of m d' → g ∈ triggers_of m d)
    ∧ (∀ e, e ∈ catmaid_history_table d'
            ↔ e ∈ catmaid_history_table d
              ∧ ∀ e', e' ∈ l → cht_live_table_name e ≠ cht_live_table_name e')
    ∧ (∀ i, indexes d !! i = None → indexes d' !! i = None)
    ∧ (∀ e, e ∈ l →
            tables d' !! hname (cht_live_table_name e) = None
            ∧ ∀ g, g ∈ triggers_of (cht_live_table_name e) d' →
                   tgname g ≠ trigger_name (cht_live_table_name e)).
Proof.
  revert d. induction l as [|e l IH]; intros d Hi; simpl.
  - eexists. split; [done|]. split_and!; try done.
    + intros e. split; [|by intros [? _]]. intros He. split; [done|].
      by intros e' ?%elem_of_nil.
    + by intros e ?%elem_of_nil.
  - destruct (drop_history_table_step (cht_live_table_name e) d)
      as (d1 & H1 & Hh1 & Hn1 & Hg1 & Hc1 & Hr1 & Hi1).
    { apply Hi. by left. }
    rewrite H1. simpl. destruct (IH d1) as (d' & H' & Hn' & Hg' & Hr' & Hi' & Hl').
    { intros e' He'. apply Hi1, Hi. by right. }
    exists d'. split; [done|]. split_and!.
    + eauto.
    + eauto.
    + intros x. rewrite Hr', Hr1. split.
      * intros [[Hx Hxe] Hxl]. split; [done|].
        intros e' [->|He']%elem_of_cons; auto.
      * intros [Hx Hxl]. split_and!; [done | |].
        -- apply Hxl. by left.
        -- intros e' He'. apply Hxl. by right.
    + eauto.
    + intros x [->|Hx]%elem_of_cons; [|by apply Hl'].
      split; [by apply Hn'|]. intros g Hg. apply Hc1. by apply Hg'.
Qed.

Lemma registry_emptied (reg reg' : list history_entry) :
  (∀ e, e ∈ reg' ↔ e ∈ reg ∧ ∀ e', e' ∈ reg →
                               cht_live_table_name e ≠ cht_live_table_name e') →
  reg' = [].
Proof.
  intros Hr. destruct reg' as [|e es]; [done|].
  assert (He : e ∈ e :: es) by (by left).
  apply Hr in He as [He Hne]. by destruct (Hne e He).
Qed.

(** X18 (teardown of everything).  [drop_all_history_tables] returns unless an
    index has the history name of a registered live table.  Afterwards the
    registry is empty, and for every live table it listed the history table
    is gone and no trigger of the live table bears the capture name. *)
Theorem drop_all_history_tables_empties (db : database) :
  (∀ e, e ∈ catmaid_history_table db →
        indexes db !! hname (cht_live_table_name e) = None) →
  ∃ db', drop_all_history_tables keyword db = Ok db'
    ∧ catmaid_history_table db' = []
    ∧ ∀ e, e ∈ catmaid_history_table db →
           tables db' !! hname (cht_live_table_name e) = None
           ∧ ∀ g, g ∈ triggers_of (cht_live_table_name e) db' →
                  tgname g ≠ trigger_name (cht_live_table_name e).
Proof.
  intros Hi. destruct (drop_loop _ _ Hi) as (db' & H & _ & _ & Hr & _ & Hl).
  exists db'. split; [exact H|]. split; [|exact Hl].
  by apply (registry_emptied (catmaid_history_table db)).
Qed.

End TeardownFacts.

Section MigrationFacts.

Variable keyword : string → bool.

Abbreviation hname := (history_table_name keyword).

Lemma has_column_set_triggers (c : string) (gs : list trigger) (t : table) :
  has_column c (set_triggers gs t) = has_column c t.
Proof. done. Qed.

Lemma create_history_table_consistent (d : nat) (now : timestamptz) (s n : string)
    (ct ci : bool) (db db1 : database) :
  registry_sound keyword db → names_disjoint db →
  create_history_table keyword d now s n ct ci db = Ok db1 →
  registry_sound keyword db1 ∧ names_disjoint db1.
Proof.
  revert s n ct ci db db1.
  induction d as [|d IH]; intros s n ct ci db db1 Hs Hd H; [discriminate|].
  destruct (is_registered (hname n) db) eqn:Hreg.
  { apply create_history_table_inv in H as [_ H]. rewrite Hreg in H. by subst. }
  apply create_history_table_stages in H
    as (pd & db2 & db4 & db5 & Hpd & H2 & S4 & (t4 & Ht4 & Hc4) & T5 & R5 & I5 & _ & H6);
    [|done].
  assert (Hp : registry_sound keyword pd.2 ∧ names_disjoint pd.2).
  { destruct ci; [|by subst].
    destruct (inheritening_of s n db) as [|p [|p' ps]]; [by subst | | done].
    destruct Hpd as [_ Hpd]. eauto. }
  destruct Hp as [Hsp Hdp]. clear Hpd.
  apply create_table_like_Ok in H2 as (R2 & I2 & H2).
  destruct S4 as (R4 & I4 & Sh4 & T4 & _).
  assert (Hnh : n ≠ hname n) by (intros E; by apply (history_table_name_neq keyword n)).
  assert (Hkeep : ∀ m t, tables pd.2 !! m = Some t →
            ∃ t', tables db1 !! m = Some t'
                  ∧ (∀ g, g ∈ triggers t → g ∈ triggers t')
                  ∧ (has_column "sys_period" t = true →
                     has_column "sys_period" t' = true)).
  { intros m t Hm.
    assert (Ht2 : tables db2 !! m = Some t).
    { destruct H2 as [[-> _]|(Hex & cols & -> & _)]; [done|].
      apply relation_exists_false in Hex as [Hex _].
      rewrite lookup_insert_ne; [done|]. intros <-. congruence. }
    destruct (T4 _ _ Ht2) as (t' & Ht' & _ & E4 & _ & C4). rewrite <- T5 in Ht'.
    destruct ct; [|subst; exists t'; split_and!; [done | by rewrite E4 | done]].
    destruct H6 as (t5 & Ht5 & _ & _ & ->). simpl.
    destruct (decide (n = m)) as [<-|Hnm].
    - rewrite lookup_insert_eq. eexists. split; [done|].
      assert (t5 = t') as -> by congruence. simpl. split; [|done].
      intros g Hg. rewrite elem_of_app. left. by rewrite E4.
    - rewrite lookup_insert_ne by done. exists t'.
      split_and!; [done | by rewrite E4 | done]. }
  assert (Hh1 : ∃ ht, tables db1 !! hname n = Some ht
                      ∧ has_column "sys_period" ht = true).
  { exists t4. split; [|done]. destruct ct; [|subst; by rewrite T5].
    destruct H6 as (t5 & _ & _ & _ & ->). simpl.
    rewrite lookup_insert_ne by done. by rewrite T5. }
  assert (Hold : ∀ e, e ∈ catmaid_history_table pd.2 →
            cht_history_table_name e = hname (cht_live_table_name e)
            ∧ (∃ ht, tables db1 !! hname (cht_live_table_name e) = Some ht
                     ∧ has_column "sys_period" ht = true)
            ∧ capture_trigger (cht_live_table_name e) (hname (cht_live_table_name e))
                ∈ triggers_of (cht_live_table_name e) db1).
  { intros e He. destruct (Hsp e He) as (Hk & (ht & Hht & Hc) & Hg).
    split_and!; [done | |].
    - destruct (Hkeep _ _ Hht) as (t' & Ht' & _ & Hc'). eauto.
    - unfold triggers_of in *.
      destruct (tables pd.2 !! cht_live_table_name e) as [t|] eqn:Hl;
        [|by apply elem_of_nil in Hg].
      destruct (Hkeep _ _ Hl) as (t' & -> & Hg' & _). auto. }
  assert (Hdom5 : ∀ k, is_Some (tables db5 !! k) →
                       k = hname n ∨ is_Some (tables pd.2 !! k)).
  { intros k. rewrite T5. intros Hk.
    assert (Hk2 : is_Some (tables db2 !! k)).
    { specialize (Sh4 k). destruct Hk as [x Hx]. rewrite Hx in Sh4.
      destruct (tables db2 !! k); [eauto | discriminate]. }
    destruct H2 as [[-> _]|(_ & cols & T2 & _)]; [by right|].
    rewrite T2 in Hk2. apply lookup_insert_is_Some in Hk2 as [->|[_ ?]]; auto. }
  assert (Hd5 : names_disjoint db5).
  { intros k Hk.
    assert (Hk4 : indexes db4 !! k = None).
    { rewrite I4, I2. destruct (Hdom5 k Hk) as [->|Hk']; [|by apply Hdp].
      destruct H2 as [[-> _]|(Hex & _)].
      - apply Hdp. rewrite <- T5 in Ht4. rewrite T5 in Ht4.
        specialize (Sh4 (hname n)). rewrite Ht4 in Sh4.
        destruct (tables pd.2 !! hname n); [eauto | discriminate].
      - by apply relation_exists_false in Hex as [_ ?]. }
    destruct I5 as [->|[Hex ->]]; [done|].
    apply relation_exists_false in Hex as [Hex _].
    rewrite lookup_insert_ne; [done|]. intros <-. rewrite T5 in Hk.
    rewrite Hex in Hk. by destruct Hk. }
  destruct ct.
  - destruct H6 as (t5 & Ht5 & _ & _ & E1). split.
    + intros e He. simpl. rewrite E1 in He. simpl in He.
      apply elem_of_app in He as [He|He].
      * apply Hold. by rewrite <- R2, <- R4, <- R5.
      * apply list_elem_of_singleton in He as ->. simpl. split_and!; [done..|].
        rewrite E1. unfold triggers_of. simpl. rewrite lookup_insert_eq. simpl.
        rewrite elem_of_app. right. by left.
    + intros k Hk. rewrite E1 in *. simpl in *. apply Hd5.
      apply lookup_insert_is_Some in Hk as [<-|[_ ?]]; eauto.
  - subst db1. split; [|done]. intros e He. apply Hold.
    by rewrite <- R2, <- R4, <- R5.
Qed.

(** X17 (the registry stays sound).  A call of [create_history_table] that
    returns keeps the registry sound: every entry is under the history name
    of its live table, that history table exists with [sys_period], and the
    live table has the capture trigger. *)
Theorem create_history_table_keeps_registry_sound (d : nat) (now : timestamptz)
    (s n : string) (ct ci : bool) (db db1 : database) :
  registry_sound keyword db → names_disjoint db →
  create_history_table keyword d now s n ct ci db = Ok db1 →
  registry_sound keyword db1.
Proof.
  intros Hs Hd H. by destruct (create_history_table_consistent _ _ _ _ _ _ _ _ Hs Hd H).
Qed.

Lemma create_history_table_registers (d : nat) (now : timestamptz) (s n : string)
    (ci : bool) (db db1 : database) :
  create_history_table keyword d now s n true ci db = Ok db1 →
  is_registered (hname n) db1 = true.
Proof.
  intros H. destruct (is_registered (hname n) db) eqn:Hreg.
  - destruct d as [|d]; [discriminate|].
    apply create_history_table_inv in H as [_ H]. rewrite Hreg in H. by subst.
  - apply create_history_table_installs in H as [_ H]; [|done].
    by apply (is_registered_elem _ _ H).
Qed.

Lemma create_history_table_stays_registered (d : nat) (now : timestamptz)
    (s n h : string) (ct ci : bool) (db db1 : database) :
  is_registered h db = true →
  create_history_table keyword d now s n ct ci db = Ok db1 →
  is_registered h db1 = true.
Proof.
  intros (e & He & <-)%is_registered_inv H.
  apply create_history_table_extends in H as [_ H]. apply is_registered_elem. auto.
Qed.

(** A loop of calls with the defaults over any list of live tables. *)
Lemma create_history_tables_loop (d : nat) (now : timestamptz) (ns : list string)
    (db db' : database) :
  registry_sound keyword db → names_disjoint db →
  foldM (fun d' name => create_history_table keyword d now "public" name true true d')
        db ns = Ok db' →
  registry_sound keyword db' ∧ names_disjoint db'
  ∧ ∀ n, n ∈ ns → is_registered (hname n) db' = true.
Proof.
  revert db. induction ns as [|n ns IH]; intros db Hs Hd H; simpl in H.
  - injection H as <-. split_and!; [done..|]. by intros n ?%elem_of_nil.
  - apply bind_Ok in H as (db1 & H1 & H).
    destruct (create_history_table_consistent _ _ _ _ _ _ _ _ Hs Hd H1) as [Hs1 Hd1].
    destruct (IH db1 Hs1 Hd1 H) as (Hs' & Hd' & Hreg). split_and!; [done..|].
    intros m [Hm|Hm]%elem_of_cons; [subst m|by apply Hreg].
    apply create_history_table_registers in H1.
    eapply (foldM_invariant (fun x => is_registered (hname n) x = true));
      [|exact H1|exact H].
    intros x t t' Ht Hb. simpl in Hb.
    eapply create_history_table_stays_registered; [exact Ht | exact Hb].
Qed.

(** X19 (the migration versions every listed table).  When the forward step
    of the migration returns, started on the empty registry that its first
    statement creates, the registry is sound and every listed table is
    versioned: its history name is registered, and the history table is
    there with [sys_period]. *)
Theorem add_initial_history_tables_versions_all (depth : nat) (now : timestamptz)
    (db db' : database) :
  catmaid_history_table db = [] → names_disjoint db →
  add_initial_history_tables keyword depth now db = Ok db' →
  registry_sound keyword db'
  ∧ ∀ n, n ∈ temp_versioned_table →
         is_registered (hname n) db' = true
         ∧ ∃ ht, tables db' !! hname n = Some ht
                 ∧ has_column "sys_period" ht = true.
Proof.
  intros Hr Hd H. unfold add_initial_history_tables in H.
  apply create_history_tables_loop in H as (Hs & _ & Hreg); [|
    by (intros e He; rewrite Hr in He; apply elem_of_nil in He) | done].
  split; [done|]. intros n Hn. specialize (Hreg n Hn). split; [done|].
  apply is_registered_inv in Hreg as (e & He & Hk).
  destruct (Hs e He) as (Hk' & Hht & _). simpl in *. by rewrite <- Hk, Hk'.
Qed.

(** X20 (the migration reverses).  The backward step after the forward step
    returns, leaves the registry empty again, and leaves no history table
    of a listed table. *)
Theorem migration_reverses (depth : nat) (now : timestamptz) (db db' : database) :
  catmaid_history_table db = [] → names_disjoint db →
  add_initial_history_tables keyword depth now db = Ok db' →
  ∃ db'', remove_history_tables keyword db' = Ok db''
    ∧ catmaid_history_table db'' = []
    ∧ ∀ n, n ∈ temp_versioned_table → tables db'' !! hname n = None.
Proof.
  intros Hr Hd H. unfold add_initial_history_tables in H.
  apply create_history_tables_loop in H as (Hs & Hd' & Hreg); [|
    by (intros e He; rewrite Hr in He; apply elem_of_nil in He) | done].
  destruct (drop_loop keyword (catmaid_history_table db') db')
    as (db'' & H' & _ & _ & Hr' & _ & Hl).
  { intros e He. destruct (Hs e He) as (_ & (ht & Hht & _) & _). simpl in Hht.
    apply Hd'. eauto. }
  exists db''. split_and!;
    [exact H' | by apply (registry_emptied (catmaid_history_table db')) |].
  intros n Hn.
  specialize (Hreg n Hn). apply is_registered_inv in Hreg as (e & He & Hk).
  destruct (Hs e He) as (Hk' & _). simpl in Hk'.
  destruct (Hl e He) as [Hnone _]. by rewrite <- Hk, Hk'.
Qed.

End MigrationFacts.

Lemma captured_one_instant (t t' : timestamptz)
    (a b c : row) :
  id b = id a → t < t' →
  ∃ h1, captured t [Create a; Modify (id a) b] [] []
        = Ok ([b], Row (id a) (cells a) (Some empty) :: h1)
    ∧ captured t' [Modify (id a) c] [b] (Row (id a) (cells a) (Some empty) :: h1)
      = Ok ([c], [Row (id a) (cells a) (Some (range None (Some t')));
                  Row (id b) (cells b) (Some (range (Some t) (Some t')));
                  open_row t' c])
    ∧ overlaps (range None (Some t')) (range (Some t) (Some t')).
Proof.
  intros Hid Hlt. exists [open_row t b]. split_and!.
  - unfold captured, history_after, capture_rows, close_where_id, close_period,
      mk_tstzrange. simpl.
    repeat (rewrite ?Z.eqb_refl, ?Z.ltb_irrefl; simpl). done.
  - unfold captured, history_after, capture_rows, close_where_id, close_period,
      mk_tstzrange. simpl.
    repeat (rewrite ?Hid, ?Z.eqb_refl; simpl).
    destruct (Z.ltb_spec t' t) as [?|_]; [lia|].
    destruct (Z.eqb_spec t t') as [?|_]; [lia|]. reflexivity.
  - exists t. simpl. split; [lia|]. apply andb_true_intro. split; lia.
Qed.

Lemma capture_installed_run (now : timestamptz) (n h : string) (ms : list mutation)
    (db db' : database) :
  capture_installed n h db →
  foldM (fun d s => execute now s.1 s.2 d) db (map (pair n) ms) = Ok db' →
  capture_installed n h db'.
Proof.
  revert db. induction ms as [|m ms IH]; intros db Hc H; simpl in H.
  - by injection H as <-.
  - apply bind_Ok in H as (d & Hd & H). simpl in Hd.
    destruct (execute_captured _ _ _ _ _ _ Hc Hd) as (Hc' & _). eauto.
Qed.

(** X7 (a version of one instant).  A row created and modified at the same
    [current_timestamp] leaves its first image in the history with the
    empty period; the next modification of the row rewrites that period to
    one without a lower bound, which overlaps the period of the second
    image. *)
Theorem version_of_one_instant_becomes_unbounded (t t' : timestamptz)
    (n h : string) (a b c : row) (db db1 db2 : database) :
  capture_installed n h db → rows_of n db = [] → rows_of h db = [] →
  id b = id a → t < t' →
  transaction t [(n, Create a); (n, Modify (id a) b)] db = (db1, true) →
  transaction t' [(n, Modify (id a) c)] db1 = (db2, true) →
  rows_of h db2
  = [Row (id a) (cells a) (Some (range None (Some t')));
     Row (id b) (cells b) (Some (range (Some t) (Some t')));
     open_row t' c]
  ∧ overlaps (range None (Some t')) (range (Some t) (Some t')).
Proof.
  intros Hc Hn Hh Hid Hlt H1 H2.
  destruct (captured_one_instant t t' a b c Hid Hlt) as (h1 & C1 & C2 & Hov).
  split; [|exact Hov]. unfold transaction in H1, H2.
  destruct (foldM _ db _) as [d1|] eqn:F1; [|discriminate].
  injection H1 as ->.
  destruct (foldM _ db1 _) as [d2|] eqn:F2; [|discriminate].
  injection H2 as ->.
  change [(n, Create a); (n, Modify (id a) b)]
    with (map (pair n) [Create a; Modify (id a) b]) in F1.
  change [(n, Modify (id a) c)] with (map (pair n) [Modify (id a) c]) in F2.
  pose proof (capture_installed_run _ _ _ _ _ _ Hc F1) as Hc1.
  apply (transaction_captured _ _ _ _ _ _ Hc) in F1.
  apply (transaction_captured _ _ _ _ _ _ Hc1) in F2.
  rewrite Hn, Hh, C1 in F1. injection F1 as E1 E2.
  rewrite <- E1, <- E2, C2 in F2. by injection F2 as _ <-.
Qed.

Lemma bare_widget_db_parents_exist (live : list row) :
  parents_exist (bare_widget_db live).
Proof.
  intros m t p Hm Hp. unfold bare_widget_db in Hm. simpl in Hm.
  apply lookup_insert_Some in Hm as [[_ <-]|[_ Hm]].
  - by apply elem_of_nil in Hp.
  - by rewrite lookup_empty in Hm.
Qed.

Lemma create_history_table_ensures_period_witness :
  ∃ ht, tables (widget_db [] []) !! "widget_history" = Some ht
        ∧ has_column "sys_period" ht = true
        ∧ relation_exists "widget_history_sys_period" (widget_db [] []) = true.
Proof.
  apply (create_history_table_ensures_period no_keyword 1 0 "public" "widget"
           true true (bare_widget_db [])).
  - vm_compute. reflexivity.
  - vm_compute. reflexivity.
Defined.

Lemma create_history_table_keeps_registry_key_witness :
  registry_keys_unique (widget_db [] []).
Proof.
  apply (create_history_table_keeps_registry_key no_keyword 1 0 "public" "widget"
           true true (bare_widget_db [])).
  - intros k. simpl. lia.
  - vm_compute. reflexivity.
Defined.

Lemma create_history_table_structure_only_witness :
  catmaid_history_table
    (atomically (create_history_table no_keyword 1 0 "public" "widget" false false)
                (bare_widget_db []))
  = [].
Proof.
  refine (proj1 (create_history_table_structure_only no_keyword 1 0 "public" "widget"
                   (bare_widget_db []) _ _)).
  vm_compute. reflexivity.
Defined.

Lemma create_then_drop_restores_witness :
  drop_history_table no_keyword "widget" (widget_db [Row 1 ["foo"] None] [])
  = Ok (bare_widget_db [Row 1 ["foo"] None]).
Proof.
  apply (create_then_drop_restores no_keyword 1 0 "public" "widget" true).
  - apply bare_widget_db_parents_exist.
  - intros i h Hi. simpl in Hi. by rewrite lookup_empty in Hi.
  - vm_compute. reflexivity.
  - vm_compute. reflexivity.
  - vm_compute. reflexivity.
  - vm_compute. reflexivity.
  - right. vm_compute. reflexivity.
  - vm_compute. reflexivity.
Defined.

Lemma fresh_history_starts_empty_witness :
  rows_of "widget_history" (widget_db [Row 1 ["foo"] None] []) = []
  ∧ rows_of "widget" (widget_db [Row 1 ["foo"] None] [])
    = rows_of "widget" (bare_widget_db [Row 1 ["foo"] None]).
Proof.
  apply (fresh_history_starts_empty no_keyword 1 0 "public" "widget" true true).
  - apply bare_widget_db_parents_exist.
  - vm_compute. reflexivity.
  - vm_compute. reflexivity.
  - right. vm_compute. reflexivity.
  - vm_compute. reflexivity.
Defined.


Lemma child_history_inherits_parent_history_witness :
  ∃ ht, tables (atomically
                  (create_history_table no_keyword 2 7 "public" "gadget" true true)
                  gadget_on_widget_db) !! "gadget_history" = Some ht
        ∧ inherits ht = ["widget_history"]
        ∧ in_scope (tables (atomically
                     (create_history_table no_keyword 2 7 "public" "gadget" true true)
                     gadget_on_widget_db)) "widget_history" "gadget_history" = true.
Proof.
  apply (child_history_inherits_parent_history no_keyword 2 7 "public" "gadget" true
           (Inheritening "public" "widget" "public" "gadget") gadget_on_widget_db).
  - vm_compute. reflexivity.
  - vm_compute. reflexivity.
  - vm_compute. reflexivity.
  - vm_compute. reflexivity.
  - vm_compute. reflexivity.
Defined.


Lemma create_history_table_keeps_registry_sound_witness :
  registry_sound no_keyword gadget_versioned_db.
Proof.
  apply (create_history_table_keeps_registry_sound no_keyword 2 7 "public" "gadget"
           true true gadget_db).
  - intros e He. by apply elem_of_nil in He.
  - intros k _. apply lookup_empty.
  - vm_compute. reflexivity.
Defined.

Lemma drop_all_history_tables_empties_witness :
  ∃ db', drop_all_history_tables no_keyword
           (widget_db [Row 1 ["foo"] None]
                      [Row 1 ["foo"] (Some (range (Some 0) None))]) = Ok db'
         ∧ catmaid_history_table db' = [].
Proof.
  destruct (drop_all_history_tables_empties no_keyword
              (widget_db [Row 1 ["foo"] None]
                         [Row 1 ["foo"] (Some (range (Some 0) None))]))
    as (db' & H & Hr & _).
  - intros e He. apply list_elem_of_singleton in He. rewrite He.
    vm_compute. reflexivity.
  - exists db'. split; [exact H | exact Hr].
Defined.

Lemma version_of_one_instant_becomes_unbounded_witness :
  rows_of "widget_history"
    (transaction 9 [("widget", Modify 1 (Row 1 ["baz"] None))]
       (transaction 3 [("widget", Create (Row 1 ["foo"] None));
                       ("widget", Modify 1 (Row 1 ["bar"] None))]
          (widget_db [] [])).1).1
  = [Row 1 ["foo"] (Some (range None (Some 9)));
     Row 1 ["bar"] (Some (range (Some 3) (Some 9)));
     open_row 9 (Row 1 ["baz"] None)].
Proof.
  refine (proj1 (version_of_one_instant_becomes_unbounded 3 9 "widget"
                   "widget_history" (Row 1 ["foo"] None) (Row 1 ["bar"] None)
                   (Row 1 ["baz"] None) (widget_db [] []) _ _ _ _ _ _ _ _ _)).
  - eexists. split; [vm_compute; reflexivity|]. split; vm_compute; reflexivity.
  - vm_compute. reflexivity.
  - vm_compute. reflexivity.
  - reflexivity.
  - lia.
  - vm_compute. reflexivity.
  - vm_compute. reflexivity.
Defined.

Lemma atomically_Ok (body : database → result database) (db : database) :
  is_ok (body db) = true → body db = Ok (atomically body db).
Proof. unfold atomically. by destruct (body db). Qed.

Lemma add_initial_history_tables_versions_all_witness :
  registry_sound no_keyword
    (atomically (add_initial_history_tables no_keyword 1 0) catmaid_db).
Proof.
  refine (proj1 (add_initial_history_tables_versions_all no_keyword 1 0 catmaid_db
                   _ _ _ _)).
  - reflexivity.
  - intros k _. apply lookup_empty.
  - apply atomically_Ok. vm_compute. reflexivity.
Defined.

Lemma migration_reverses_witness :
  ∃ db'', remove_history_tables no_keyword
            (atomically (add_initial_history_tables no_keyword 1 0) catmaid_db)
          = Ok db''
          ∧ catmaid_history_table db'' = [].
Proof.
  destruct (migration_reverses no_keyword 1 0 catmaid_db
              (atomically (add_initial_history_tables no_keyword 1 0) catmaid_db))
    as (db'' & H & Hr & _).
  - reflexivity.
  - intros k _. apply lookup_empty.
  - apply atomically_Ok. vm_compute. reflexivity.
  - exists db''. split; [exact H | exact Hr].
Defined.

Lemma create_history_table_parent_raises_witness :
  create_history_table no_keyword 2 0 "public" "gadget" true true stale_trigger_db
  = Err (duplicate_object "on_change_widget_update_history").
Proof.
  apply (create_history_table_parent_raises no_keyword 1 0 "public" "gadget" true
           stale_trigger_db (Inheritening "public" "widget" "public" "gadget")).
  - vm_compute. reflexivity.
  - vm_compute. reflexivity.
  - vm_compute. reflexivity.
Defined.

